(** * Texas-Weather: the scheduled runner and the dashboard reader

    A shallow embedding of [automated_weather_pipeline.py] (the retry loop
    around the ETL pipeline) and of the data path of [weather_dashboard.py]
    (loading the two relations, the alert banner, the sidebar filters),
    followed by the properties the specification states about them. *)

From Stdlib Require Import List String Ascii Bool Arith ZArith QArith Lia Permutation.
From Stdlib Require Import Sorted Qround.
Import ListNotations.
Close Scope Q_scope.
Open Scope nat_scope.

Set Implicit Arguments.

(* ====================================================================== *)
(** * Part I. The programs                                                  *)
(* ====================================================================== *)

(** ** Python effects: exceptions over an explicit world *)

Module Py.

(** The part of Python's exception hierarchy the two scripts distinguish:
    [except Exception] catches the instances of [Exception], a bare
    [except:] catches every [BaseException], among them the two that are
    not instances of [Exception]. *)
Inductive exn : Type :=
| Exception (cls : string) (msg : string)
| KeyboardInterrupt
| SystemExit (code : Z).

Definition is_Exception (e : exn) : bool :=
  match e with
  | Exception _ _ => true
  | KeyboardInterrupt | SystemExit _ => false
  end.

(** [str(e)] *)
Definition str (e : exn) : string :=
  match e with
  | Exception _ msg => msg
  | KeyboardInterrupt => EmptyString
  | SystemExit _ => EmptyString
  end.

Inductive completion (A : Type) : Type :=
| Normal (a : A)
| Raised (e : exn).
Arguments Raised {A} e.

Section Effects.
Variable W : Type.

(** A statement run from a world ends normally or by raising, in a new
    world either way. *)
Definition eff (A : Type) : Type := W -> completion A * W.

Definition ret {A} (a : A) : eff A := fun w => (Normal a, w).

Definition bind {A B} (c : eff A) (k : A -> eff B) : eff B :=
  fun w =>
    match c w with
    | (Normal a, w') => k a w'
    | (Raised e, w') => (Raised e, w')
    end.

Definition raise {A} (e : exn) : eff A := fun w => (Raised e, w).

(** [try: c  except Exception as e: h e] *)
Definition try_except_Exception {A} (c : eff A) (h : exn -> eff A) : eff A :=
  fun w =>
    match c w with
    | (Normal a, w') => (Normal a, w')
    | (Raised e, w') => if is_Exception e then h e w' else (Raised e, w')
    end.

(** [try: c  except: h] *)
Definition try_except {A} (c : eff A) (h : eff A) : eff A :=
  fun w =>
    match c w with
    | (Normal a, w') => (Normal a, w')
    | (Raised _, w') => h w'
    end.

Definition modify (f : W -> W) : eff unit := fun w => (Normal tt, f w).
End Effects.

Arguments ret {W A} a.
Arguments raise {W A} e.
Arguments modify {W} f.

Declare Scope py_scope.
Delimit Scope py_scope with py.
Notation "x <- c ;; k" := (bind c (fun x => k))
  (at level 61, c at next level, right associativity) : py_scope.
Notation "c ;; k" := (bind c (fun _ => k))
  (at level 61, right associativity) : py_scope.

End Py.

(** ** automated_weather_pipeline.py *)

Module Runner.
Import Py.
Local Open Scope py_scope.

(** [class AutomationConfig]: the two settings the retry loop reads. *)
Record AutomationConfig : Type := {
  MAX_RETRIES : nat;
  RETRY_DELAY_MINUTES : nat
}.

(** The values of the source. *)
Definition default_config : AutomationConfig :=
  {| MAX_RETRIES := 3; RETRY_DELAY_MINUTES := 5 |}.

(** A row of a collection in the pipeline result, kept as its
    column/value pairs; the loop only counts rows. *)
Definition record : Type := list (string * string).

(** Modelled from the spec: the type of what [WeatherPipeline().run()]
    returns; [weather_pipeline.py] is not among the sources. "A record
    containing an elapsed-time measurement and two named collections of
    rows": the three values lines 98-100 read, [result['execution_time']],
    [result['data']['current']] and [result['data']['forecast']]. *)
Record pipeline_result : Type := {
  execution_time : Q;
  data_current : list record;
  data_forecast : list record
}.

(** What one [WeatherPipeline()] followed by [pipeline.run()] does: it
    returns a result, returns nothing ([None]), or raises. *)
Inductive outcome : Type :=
| Returns (result : option pipeline_result)
| Raises (e : exn).

(** [if result:] *)
Definition truthy (result : option pipeline_result) : bool :=
  match result with Some _ => true | None => false end.

(** The pipeline is outside the program: [pipeline k] is what its [k]-th
    invocation (counted from 1) does. *)
Definition pipeline_stub : Type := nat -> outcome.

Inductive level : Type := INFO | ERROR.

(** The lines the function writes to [logger], by their format string. *)
Inductive message : Type :=
| Rule                                        (* "=" * 70 *)
| Starting (attempt max : nat)                (* Starting pipeline execution (Attempt a/m) *)
| Completed                                   (* Pipeline completed successfully! *)
| ExecutionTime (seconds : Q)                 (* - Execution time: ... seconds *)
| CurrentRecords (n : nat)                    (* - Current weather records: n *)
| ForecastRecords (n : nat)                   (* - Forecast records: n *)
| NoResult                                    (* Pipeline returned no result *)
| FailedOnAttempt (attempt : nat) (detail : string)
                                              (* Pipeline failed on attempt a: str(e) *)
| Retrying (minutes : nat)                    (* Retrying in m minutes... *)
| FailedAfter (max : nat).                    (* Pipeline failed after m attempts *)

(** What an observer of the process sees, in order. *)
Inductive event : Type :=
| Logged (l : level) (m : message)
| Invoked (k : nat)                           (* the k-th pipeline invocation starts *)
| Slept (seconds : nat).                      (* time.sleep(seconds) *)

Record world : Type := {
  invocations : nat;
  trace : list event
}.

Definition start : world := {| invocations := 0; trace := [] |}.

Definition emit (e : event) : eff world unit :=
  modify (fun w => {| invocations := invocations w; trace := trace w ++ [e] |}).

Definition logger_info (m : message) : eff world unit := emit (Logged INFO m).
Definition logger_error (m : message) : eff world unit := emit (Logged ERROR m).
Definition time_sleep (seconds : nat) : eff world unit := emit (Slept seconds).

(** [pipeline = WeatherPipeline(); result = pipeline.run()] *)
Definition run_pipeline (pipeline : pipeline_stub) : eff world (option pipeline_result) :=
  fun w =>
    let k := S (invocations w) in
    let w' := {| invocations := k; trace := trace w ++ [Invoked k] |} in
    match pipeline k with
    | Returns result => (Normal result, w')
    | Raises e => (Raised e, w')
    end.

(** The body of the [for] loop, lines 87-114. [Some b] is [return b];
    [None] lets the loop go on to the next attempt. *)
Definition attempt_body (cfg : AutomationConfig) (pipeline : pipeline_stub)
    (attempt : nat) : eff world (option bool) :=
  try_except_Exception
    (logger_info Rule ;;
     logger_info (Starting attempt (MAX_RETRIES cfg)) ;;
     logger_info Rule ;;
     result <- run_pipeline pipeline ;;
     match result with
     | Some r =>
         logger_info Completed ;;
         logger_info (ExecutionTime (execution_time r)) ;;
         logger_info (CurrentRecords (List.length (data_current r))) ;;
         logger_info (ForecastRecords (List.length (data_forecast r))) ;;
         ret (Some true)
     | None =>
         logger_error NoResult ;;
         ret None
     end)
    (fun e =>
       logger_error (FailedOnAttempt attempt (str e)) ;;
       if attempt <? MAX_RETRIES cfg then
         let wait_seconds := RETRY_DELAY_MINUTES cfg * 60 in
         logger_info (Retrying (RETRY_DELAY_MINUTES cfg)) ;;
         time_sleep wait_seconds ;;
         ret None
       else
         logger_error (FailedAfter (MAX_RETRIES cfg)) ;;
         ret (Some false)).

(** [for attempt in attempts: ...] and the [return False] after it. *)
Fixpoint for_attempt (cfg : AutomationConfig) (pipeline : pipeline_stub)
    (attempts : list nat) : eff world bool :=
  match attempts with
  | [] => ret false
  | attempt :: rest =>
      r <- attempt_body cfg pipeline attempt ;;
      match r with
      | Some b => ret b
      | None => for_attempt cfg pipeline rest
      end
  end.

(** [range(1, AutomationConfig.MAX_RETRIES + 1)] *)
Definition range_from_1 (n : nat) : list nat := seq 1 n.

Definition run_pipeline_with_retry (cfg : AutomationConfig)
    (pipeline : pipeline_stub) : eff world bool :=
  for_attempt cfg pipeline (range_from_1 (MAX_RETRIES cfg)).

(** Observations of a finished call. *)
Definition attempts_made (t : list event) : list nat :=
  flat_map (fun e => match e with Invoked k => [k] | _ => [] end) t.

Definition sleeps (t : list event) : list nat :=
  flat_map (fun e => match e with Slept s => [s] | _ => [] end) t.

Definition errors_logged (t : list event) : list message :=
  flat_map (fun e => match e with Logged ERROR m => [m] | _ => [] end) t.

(** A failed invocation, in the words of the loop: an [Exception] was
    raised, or nothing came back. *)
Definition fails (o : outcome) : bool :=
  match o with
  | Returns result => negb (truthy result)
  | Raises e => is_Exception e
  end.

Definition raises_error (o : outcome) : bool :=
  match o with
  | Raises e => is_Exception e
  | Returns _ => false
  end.

Definition returns_truthy (o : outcome) : bool :=
  match o with
  | Returns result => truthy result
  | Raises _ => false
  end.

(** What every attempt writes before the outcome of the invocation is
    known: the three opening log lines and the invocation itself. *)
Definition prologue (cfg : AutomationConfig) (attempt k : nat) : list event :=
  [Logged INFO Rule; Logged INFO (Starting attempt (MAX_RETRIES cfg));
   Logged INFO Rule; Invoked k].

(** The world after one more invocation that left the events [es]. *)
Definition extend (w : world) (es : list event) : world :=
  {| invocations := S (invocations w); trace := trace w ++ es |}.


End Runner.

(** ** weather_dashboard.py *)

Module Dashboard.
Import Py.
Local Open Scope py_scope.
Local Open Scope string_scope.

(** *** The two relations *)

(** A row of [forecast_data]. [date] is the day number of the DATE column
    (what [.dt.date] compares), the measurements are the finite values of
    the DOUBLE columns. *)
Record forecast_row : Type := {
  city : string;
  date : Z;
  temp_min : Q;
  temp_max : Q;
  temp_avg : Q;
  humidity : Q;
  wind_speed : Q;
  precipitation_prob : Q;
  conditions : string
}.

(** A row of [alerts_data]. [None] is SQL NULL in the columns the script
    guards against it ([na=False], [isin], [if alert['instruction']]).
    [extracted_at] counts seconds. *)
Record alert_row : Type := {
  event : option string;
  severity : option string;
  urgency : string;
  area_desc : string;
  expires : string;
  headline : string;
  instruction : option string;
  extracted_at : Z
}.

(** A relation of the store is missing, holds rows, or cannot be read:
    selecting from it raises [e]. *)
Inductive relation (row : Type) : Type :=
| Absent
| Present (rows : list row)
| Failing (e : exn).
Arguments Absent {row}.
Arguments Failing {row} e.

Record database : Type := {
  forecast_data : relation forecast_row;
  alerts_data : relation alert_row
}.

(** *** What a render pass shows *)

Inductive notice : Type :=
| TornadoAlert                      (* TORNADO ALERT! Tornado Warning or Watch in effect! *)
| SevereThunderstormWarning         (* SEVERE THUNDERSTORM WARNING! ... *)
| OtherSevereActive (n : nat)       (* n Other Severe Weather Alert(s) Active *)
| AdvisoriesActive (n : nat)        (* n weather advisory/watch alert(s) active *)
| NoActiveAlerts                    (* No active severe weather alerts *)
| ErrorLoadingData (detail : string)(* Error loading data: str(e) *)
| MakeSurePipelineHasRun
| RunPipelineFirst.

Inductive detail : Type :=
| Severity (s : option string)
| Urgency (s : string)
| Expires (s : string)
| Headline (s : string)
| WhatToDo (s : string).

Inductive widget : Type :=
| st_error (n : notice)
| st_warning (n : notice)
| st_info (n : notice)
| st_success (n : notice)
| st_expander (label_event : option string) (label_area : string)
              (expanded : bool) (body : list detail)
| st_download_button (rows : list forecast_row)   (* the rows whose CSV text is offered *)
| st_other (name : string).

(** The process: the file [weather_project.duckdb] ([None]: there is no
    such file) and the page drawn so far. *)
Record world : Type := {
  file : option database;
  page : list widget
}.

Definition st (ws : list widget) : eff world unit :=
  modify (fun w => {| file := file w; page := (page w ++ ws)%list |}).

(** *** duckdb, as far as the script uses it *)

Record connection : Type := { read_only : bool }.

Definition empty_database : database :=
  {| forecast_data := Absent; alerts_data := Absent |}.

(** [duckdb.connect(path, read_only=ro)]: a writable connection creates a
    missing file, a read-only one raises. *)
Definition duckdb_connect (ro : bool) : eff world connection :=
  fun w =>
    match file w with
    | Some _ => (Normal {| read_only := ro |}, w)
    | None =>
        if ro then
          (Raised (Exception "IOException" "Cannot open database in read-only mode: database does not exist"), w)
        else
          (Normal {| read_only := ro |}, {| file := Some empty_database; page := page w |})
    end.

(** What a statement gives back through [.df()]. *)
Inductive answer : Set := forecast_rows | alert_rows | nothing.

Definition rows_of (k : answer) : Type :=
  match k with
  | forecast_rows => list forecast_row
  | alert_rows => list alert_row
  | nothing => unit
  end.

Inductive statement : answer -> Type :=
| select_forecast_data : statement forecast_rows
    (* SELECT * FROM forecast_data ORDER BY city, date *)
| select_alerts_data : statement alert_rows
    (* SELECT * FROM alerts_data ORDER BY extracted_at DESC *)
| insert_forecast : forecast_row -> statement nothing
| insert_alert : alert_row -> statement nothing.

Fixpoint insert_by {A} (le : A -> A -> bool) (x : A) (l : list A) : list A :=
  match l with
  | [] => [x]
  | y :: l' => if le x y then x :: l else y :: insert_by le x l'
  end.

Definition order_by {A} (le : A -> A -> bool) (l : list A) : list A :=
  fold_right (insert_by le) [] l.

Definition by_city_date (a b : forecast_row) : bool :=
  String.ltb (city a) (city b) || (String.eqb (city a) (city b) && (date a <=? date b)%Z).

Definition by_extracted_at_desc (a b : alert_row) : bool :=
  (extracted_at b <=? extracted_at a)%Z.

Definition select {row} (name : string) (le : row -> row -> bool)
    (r : relation row) : completion (list row) :=
  match r with
  | Absent => Raised (Exception "CatalogException" ("Table with name " ++ name ++ " does not exist!"))
  | Present rows => Normal (order_by le rows)
  | Failing e => Raised e
  end.

Definition append {row} (x : row) (r : relation row) : completion (relation row) :=
  match r with
  | Absent => Raised (Exception "CatalogException" "Table does not exist!")
  | Present rows => Normal (Present (rows ++ [x])%list)
  | Failing e => Raised e
  end.

Definition read_only_refusal : exn :=
  Exception "InvalidInputException"
    "Cannot execute statement of type INSERT on database which is attached in read-only mode!".

(** [con.execute(sql).df()] *)
Definition execute {k} (con : connection) (sql : statement k) : eff world (rows_of k) :=
  fun w =>
    match file w with
    | None => (Raised (Exception "ConnectionException" "Connection already closed!"), w)
    | Some db =>
        match sql in statement k' return completion (rows_of k') * world with
        | select_forecast_data =>
            (select "forecast_data" by_city_date (forecast_data db), w)
        | select_alerts_data =>
            (select "alerts_data" by_extracted_at_desc (alerts_data db), w)
        | insert_forecast x =>
            if read_only con then (Raised read_only_refusal, w)
            else match append x (forecast_data db) with
                 | Normal r => (Normal tt, {| file := Some {| forecast_data := r; alerts_data := alerts_data db |};
                                              page := page w |})
                 | Raised e => (Raised e, w)
                 end
        | insert_alert x =>
            if read_only con then (Raised read_only_refusal, w)
            else match append x (alerts_data db) with
                 | Normal r => (Normal tt, {| file := Some {| forecast_data := forecast_data db; alerts_data := r |};
                                              page := page w |})
                 | Raised e => (Raised e, w)
                 end
        end
    end.

(** *** Loading (lines 74-98). The Streamlit caches only spare calls: a
    pass that finds its data cached does not touch the store at all. *)

Definition get_database_connection : eff world connection :=
  duckdb_connect true.

(** [pd.to_datetime] on the DATE column leaves the day numbers as they
    are. *)
Definition load_forecast_data : eff world (list forecast_row) :=
  con <- get_database_connection ;;
  df <- execute con select_forecast_data ;;
  ret df.

(** [pd.DataFrame()] has no rows. *)
Definition load_alerts_data : eff world (list alert_row) :=
  try_except
    (con <- get_database_connection ;;
     df <- execute con select_alerts_data ;;
     ret df)
    (ret []).

(** *** The alert banner (lines 199-263) *)

(** [case=False], on the ASCII letters. *)
Definition lower (c : ascii) : ascii :=
  let n := nat_of_ascii c in
  if ((65 <=? n) && (n <=? 90))%nat then ascii_of_nat (n + 32) else c.

Fixpoint casefold (s : string) : string :=
  match s with
  | EmptyString => EmptyString
  | String c s' => String (lower c) (casefold s')
  end.

Fixpoint occurs (pat s : string) : bool :=
  prefix pat s ||
  match s with
  | EmptyString => false
  | String _ s' => occurs pat s'
  end.

(** [series.str.contains('p1|p2', case=False, na=False)] on one cell, the
    pattern given by its alternatives. *)
Definition str_contains (alternatives : list string) (cell : option string) : bool :=
  match cell with
  | None => false
  | Some s => existsb (fun p => occurs (casefold p) (casefold s)) alternatives
  end.

(** [series.isin(values)] on one cell. *)
Definition isin (values : list string) (cell : option string) : bool :=
  match cell with
  | None => false
  | Some s => existsb (String.eqb s) values
  end.

(** [(datetime.now() - alerts_df['extracted_at']).dt.total_seconds() < 86400] *)
Definition recent_alerts (now : Z) (alerts_df : list alert_row) : list alert_row :=
  filter (fun a => (now - extracted_at a <? 86400)%Z) alerts_df.

Definition tornado_alerts (recent : list alert_row) : list alert_row :=
  filter (fun a => str_contains ["Tornado"] (event a)) recent.

Definition thunderstorm_alerts (recent : list alert_row) : list alert_row :=
  filter (fun a => str_contains ["Severe Thunderstorm"] (event a)) recent.

Definition other_severe_alerts (recent : list alert_row) : list alert_row :=
  filter (fun a => negb (str_contains ["Tornado"; "Severe Thunderstorm"] (event a))
                   && isin ["Extreme"; "Severe"] (severity a)) recent.

Definition moderate_alerts (recent : list alert_row) : list alert_row :=
  filter (fun a => isin ["Moderate"; "Minor"] (severity a)) recent.

(** [if alert['instruction']: st.markdown(... alert['instruction'][:300])] *)
Definition what_to_do (a : alert_row) : list detail :=
  match instruction a with
  | Some (String c s) => [WhatToDo (substring 0 300 (String c s))]
  | Some EmptyString | None => []
  end.

Definition expander_full (a : alert_row) : widget :=
  st_expander (event a) (area_desc a) true
    ([Severity (severity a); Urgency (urgency a); Expires (expires a); Headline (headline a)]
     ++ what_to_do a)%list.

Definition expander_short (a : alert_row) : widget :=
  st_expander (event a) (area_desc a) false
    [Severity (severity a); Urgency (urgency a); Expires (expires a); Headline (headline a)].

(** [df.head(3)] *)
Definition head3 {A} (l : list A) : list A := firstn 3 l.

(** The section between the two rules of lines 193 and 265. [now] is the
    value of [datetime.now()] at line 203; [extracted_at] is a timestamp
    already, so line 201 changes nothing. *)
Definition alerts_banner (now : Z) (alerts_df : list alert_row) : list widget :=
  if (0 <? List.length alerts_df)%nat then
    let recent := recent_alerts now alerts_df in
    if (0 <? List.length recent)%nat then
      (let t := tornado_alerts recent in
       if (0 <? List.length t)%nat
       then st_error TornadoAlert :: map expander_full (head3 t) else [])
      ++
      (let t := thunderstorm_alerts recent in
       if (0 <? List.length t)%nat
       then st_warning SevereThunderstormWarning :: map expander_full (head3 t) else [])
      ++
      (let t := other_severe_alerts recent in
       if (0 <? List.length t)%nat
       then st_warning (OtherSevereActive (List.length t)) :: map expander_short (head3 t) else [])
      ++
      (let t := moderate_alerts recent in
       if (0 <? List.length t)%nat
       then [st_info (AdvisoriesActive (List.length t))] else [])
    else []
  else [st_success NoActiveAlerts].

(** *** Sidebar filters (lines 271-309) *)

(** What the three sidebar widgets return: the selectbox a city or
    ['All'], the date input a tuple of one or two dates, the slider a pair
    of integers. *)
Record sidebar : Type := {
  selected_city : string;
  date_range : list Z;
  temp_range : Z * Z
}.

Definition city_filter (ui : sidebar) (df : list forecast_row) : list forecast_row :=
  if negb (selected_city ui =? "All")
  then filter (fun r => city r =? selected_city ui) df
  else df.

Definition date_filter (ui : sidebar) (df : list forecast_row) : list forecast_row :=
  match date_range ui with
  | [d0; d1] => filter (fun r => (d0 <=? date r)%Z && (date r <=? d1)%Z) df
  | _ => df
  end.

Definition in_band (ui : sidebar) (r : forecast_row) : bool :=
  Qle_bool (inject_Z (fst (temp_range ui))) (temp_max r)
  && Qle_bool (temp_max r) (inject_Z (snd (temp_range ui))).

Definition temp_filter (ui : sidebar) (df : list forecast_row) : list forecast_row :=
  filter (in_band ui) df.

Definition filtered_df (ui : sidebar) (df : list forecast_row) : list forecast_row :=
  temp_filter ui (date_filter ui (city_filter ui df)).

(** *** The script (lines 110-631) *)

(** The sections that only draw (cards, metrics, charts, tables) and the
    sidebar widgets are taken as given: each is a function of the frames
    in memory that adds widgets and may stop by raising. None of them is
    handed a connection. *)
Definition drawn : Type := list widget * option exn.

Record sections : Type := {
  current_temperatures : list forecast_row -> drawn;               (* 118-193 *)
  sidebar_choices : list forecast_row -> sidebar + exn;            (* 271-293 *)
  metrics_and_charts : list forecast_row -> list forecast_row -> drawn;  (* 315-523 *)
  alerts_history : list alert_row -> drawn;                        (* 529-570 *)
  data_table : list forecast_row -> drawn;                         (* 576-595 *)
  statistics : list forecast_row -> drawn                          (* 615-626 *)
}.

Definition draw (d : drawn) : eff world unit :=
  st (fst d) ;;
  match snd d with
  | Some e => raise e
  | None => ret tt
  end.

Definition ask (c : sidebar + exn) : eff world sidebar :=
  match c with
  | inl ui => ret ui
  | inr e => raise e
  end.

Definition main (now : Z) (s : sections) : eff world unit :=
  try_except_Exception
    (df <- load_forecast_data ;;
     alerts_df <- load_alerts_data ;;
     draw (current_temperatures s df) ;;
     st (alerts_banner now alerts_df) ;;
     ui <- ask (sidebar_choices s df) ;;
     let filtered := filtered_df ui df in
     draw (metrics_and_charts s df filtered) ;;
     draw (alerts_history s alerts_df) ;;
     draw (data_table s filtered) ;;
     st [st_download_button filtered] ;;
     draw (statistics s filtered))
    (fun e =>
       st [st_error (ErrorLoadingData (str e));
           st_info MakeSurePipelineHasRun;
           st_info RunPipelineFirst]).

(** A statement that leaves the file as it found it, however it ends. *)
Definition keeps_store {A} (c : eff world A) : Prop :=
  forall w, file (snd (c w)) = file w.

(** [r] with other values in the two temperature columns the band filter
    does not name. *)
Definition with_temps (r : forecast_row) (tmin tavg : Q) : forecast_row :=
  {| city := city r; date := date r;
     temp_min := tmin; temp_max := temp_max r; temp_avg := tavg;
     humidity := humidity r; wind_speed := wind_speed r;
     precipitation_prob := precipitation_prob r; conditions := conditions r |}.

(** A render pass over the store [db], from an empty page. *)
Definition render_pass (now : Z) (s : sections) (db : option database)
    : completion unit * world :=
  main now s {| file := db; page := [] |}.

End Dashboard.

(** ** Sample inputs *)

Module Samples.
Import Py Runner.
Local Open Scope string_scope.

Definition a_result : pipeline_result :=
  {| execution_time := (25 # 2)%Q;
     data_current := [[("city", "Austin")]; [("city", "Dallas")]];
     data_forecast := [[("city", "Austin")]] |}.

(** Raises on the first two invocations, then returns a result. *)
Definition third_time_lucky : pipeline_stub :=
  fun k => if (k <? 3)%nat then Raises (Exception "ConnectionError" "timed out")
           else Returns (Some a_result).

Definition always_raises : pipeline_stub :=
  fun _ => Raises (Exception "ConnectionError" "timed out").

Definition returns_nothing : pipeline_stub :=
  fun _ => Returns None.

(** The operator presses Ctrl+C while the pipeline runs. *)
Definition interrupted : pipeline_stub :=
  fun _ => Raises KeyboardInterrupt.

Import Dashboard.

Definition now0 : Z := 1700000000.

Definition an_alert (ev sev : string) (age : Z) : alert_row :=
  {| event := Some ev; severity := Some sev; urgency := "Immediate";
     area_desc := "Travis, TX"; expires := "2023-11-14T23:00:00";
     headline := ev; instruction := Some "Take shelter now.";
     extracted_at := now0 - age |}.

(** The three rows of the triage example; the severity of the warning is
    left open. *)
Definition tornado_warning (sev : string) : alert_row :=
  an_alert "Tornado Warning" sev 3600.
Definition flood_watch : alert_row := an_alert "Flood Watch" "Minor" 7200.
Definition tornado_watch : alert_row := an_alert "Tornado Watch" "Extreme" 108000.

Definition a_forecast (c : string) (d : Z) (lo hi : Z) : forecast_row :=
  {| city := c; date := d;
     temp_min := inject_Z lo; temp_max := inject_Z hi;
     temp_avg := (inject_Z (lo + hi) / 2)%Q;
     humidity := 55; wind_speed := 9; precipitation_prob := 20;
     conditions := "clear sky" |}.

Definition forecasts : list forecast_row :=
  [a_forecast "Dallas" 19675 40 75; a_forecast "Austin" 19675 61 92;
   a_forecast "Austin" 19676 58 79].

Definition all_cities (lo hi : Z) : sidebar :=
  {| selected_city := "All"; date_range := [19675; 19676]%Z; temp_range := (lo, hi) |}.

(** Drawing sections that add nothing and do not raise. *)
Definition quiet : sections :=
  {| current_temperatures := fun _ => ([], None);
     sidebar_choices := fun _ => inl (all_cities 40 92);
     metrics_and_charts := fun _ _ => ([], None);
     alerts_history := fun _ => ([], None);
     data_table := fun _ => ([], None);
     statistics := fun _ => ([], None) |}.

(** A store whose alerts relation is there but cannot be read. *)
Definition unreadable_alerts : database :=
  {| forecast_data := Present forecasts;
     alerts_data := Failing (Exception "IOException" "Could not read from file") |}.

Definition stale_only : list alert_row := [tornado_watch].

End Samples.

(** ** automated_weather_pipeline.py: the job, the one-shot mode, the loop *)

Module Jobs.
Import Py Runner.
Local Open Scope py_scope.

(** [AutomationConfig.RUN_INTERVAL_HOURS] *)
Definition RUN_INTERVAL_HOURS : nat := 3.

(** [AutomationConfig.LOG_DIR] *)
Definition LOG_DIR : string := "logs".

(** The log lines of [scheduled_job], [setup_schedule], [main] and
    [run_once], by their text. *)
Inductive job_message : Type :=
| Bells                             (* the row of bells, lines 125 and 127 *)
| JobTriggered                      (* SCHEDULED JOB TRIGGERED *)
| JobCompleted                      (* Scheduled job completed successfully *)
| JobFailed                         (* Scheduled job failed *)
| RunningOnce                       (* Running pipeline once... *)
| Ruler                             (* "=" * 70 *)
| AutomationStarted                 (* WEATHER PIPELINE AUTOMATION STARTED *)
| StartTime                         (* Start time: ... *)
| LogsDirectory (dir : string)      (* Logs directory: dir *)
| RunInterval (hours : nat)         (* Run interval: Every h hours *)
| SettingUp                         (* Setting up automation schedule... *)
| ScheduledEvery (hours : nat)      (* Scheduled to run every h hours *)
| ScheduleConfigured                (* Schedule configured successfully *)
| RunningInitial                    (* Running initial pipeline execution... *)
| LoopStarted                       (* Automation loop started. Press Ctrl+C to stop. *)
| StoppedByUser.                    (* Automation stopped by user *)

(** What the process does, in order: the events of the retry loop, and
    around them the lines and calls of the functions that use it. *)
Inductive job_event : Type :=
| InRetry (e : event)
| JobLogged (l : level) (m : job_message)
| Registered (hours : nat)          (* schedule.every(hours).hours.do(scheduled_job) *)
| Polled                            (* schedule.run_pending() *)
| Waited (seconds : nat).           (* time.sleep(seconds) in the main loop *)

Record job_world : Type := {
  calls : nat;                      (* pipeline invocations so far *)
  journal : list job_event
}.

Definition job_start : job_world := {| calls := 0; journal := [] |}.

Definition note (e : job_event) : eff job_world unit :=
  modify (fun w => {| calls := calls w; journal := journal w ++ [e] |}).

Definition info (m : job_message) : eff job_world unit := note (JobLogged INFO m).
Definition error (m : job_message) : eff job_world unit := note (JobLogged ERROR m).

(** A call of a function of the retry loop from a function of this module:
    its events go to the journal as they come. *)
Definition call {A} (c : eff world A) : eff job_world A :=
  fun w =>
    match c {| invocations := calls w; trace := [] |} with
    | (r, w') =>
        (r, {| calls := invocations w'; journal := journal w ++ map InRetry (trace w') |})
    end.

(** Lines 123-134. *)
Definition scheduled_job (cfg : AutomationConfig) (pipeline : pipeline_stub)
    : eff job_world unit :=
  info Bells ;;
  info JobTriggered ;;
  info Bells ;;
  success <- call (run_pipeline_with_retry cfg pipeline) ;;
  if success : bool then info JobCompleted else error JobFailed.

(** Lines 141-160; options 2 and 3 are commented out in the source. *)
Definition setup_schedule : eff job_world unit :=
  info SettingUp ;;
  note (Registered RUN_INTERVAL_HOURS) ;;
  info (ScheduledEvery RUN_INTERVAL_HOURS) ;;
  info ScheduleConfigured.

(** Lines 203-207: [sys.exit(0 if success else 1)] raises [SystemExit]. *)
Definition run_once (cfg : AutomationConfig) (pipeline : pipeline_stub)
    : eff job_world unit :=
  info RunningOnce ;;
  success <- call (run_pipeline_with_retry cfg pipeline) ;;
  raise (SystemExit (if success : bool then 0 else 1)).

(** What the clock and the operator contribute to one turn of the loop of
    line 189: whether [schedule.run_pending()] finds the job due, and
    whether Ctrl+C arrives during the [time.sleep(60)] that follows. *)
Record turn : Type := {
  due : bool;
  interrupted : bool
}.

(** [while True] has no exit of its own: as long as nothing is raised the
    loop is still going when the turns observed are over. *)
Inductive status : Type := StillRunning | Stopped.

Fixpoint polling (cfg : AutomationConfig) (pipeline : pipeline_stub)
    (turns : list turn) : eff job_world status :=
  match turns with
  | [] => ret StillRunning
  | t :: rest =>
      note Polled ;;
      (if due t then scheduled_job cfg pipeline else ret tt) ;;
      (if interrupted t then raise KeyboardInterrupt else note (Waited 60)) ;;
      polling cfg pipeline rest
  end.

(** [try: c  except KeyboardInterrupt: h] *)
Definition try_except_KeyboardInterrupt {A} (c h : eff job_world A) : eff job_world A :=
  fun w =>
    match c w with
    | (Raised KeyboardInterrupt, w') => h w'
    | other => other
    end.

(** Lines 167-196. *)
Definition main (cfg : AutomationConfig) (pipeline : pipeline_stub)
    (turns : list turn) : eff job_world status :=
  info Ruler ;;
  info AutomationStarted ;;
  info Ruler ;;
  info StartTime ;;
  info (LogsDirectory LOG_DIR) ;;
  info (RunInterval RUN_INTERVAL_HOURS) ;;
  info Ruler ;;
  setup_schedule ;;
  info RunningInitial ;;
  scheduled_job cfg pipeline ;;
  info LoopStarted ;;
  try_except_KeyboardInterrupt
    (polling cfg pipeline turns)
    (info Ruler ;; info StoppedByUser ;; info Ruler ;; ret Stopped).

(** What [main] has written when it reaches the first job. *)
Definition before_first_job : job_world :=
  {| calls := 0;
     journal := [JobLogged INFO Ruler; JobLogged INFO AutomationStarted;
                 JobLogged INFO Ruler; JobLogged INFO StartTime;
                 JobLogged INFO (LogsDirectory LOG_DIR);
                 JobLogged INFO (RunInterval RUN_INTERVAL_HOURS);
                 JobLogged INFO Ruler;
                 JobLogged INFO SettingUp; Registered RUN_INTERVAL_HOURS;
                 JobLogged INFO (ScheduledEvery RUN_INTERVAL_HOURS);
                 JobLogged INFO ScheduleConfigured;
                 JobLogged INFO RunningInitial] |}.

(** Observations of a journal. *)
Definition jobs_run (j : list job_event) : nat :=
  List.length (filter (fun e => match e with JobLogged INFO JobTriggered => true | _ => false end) j).

Definition waits (j : list job_event) : list nat :=
  flat_map (fun e => match e with Waited s => [s] | _ => [] end) j.

Definition job_lines (j : list job_event) : list (level * job_message) :=
  flat_map (fun e => match e with JobLogged l m => [(l, m)] | _ => [] end) j.

Definition retry_events (j : list job_event) : list event :=
  flat_map (fun e => match e with InRetry x => [x] | _ => [] end) j.

(** The pipeline raises nothing but instances of [Exception]. *)
Definition only_Exceptions (pipeline : pipeline_stub) : Prop :=
  forall k e, pipeline k = Raises e -> is_Exception e = true.

(** The error lines a failed attempt leaves: one for the attempt, and the
    closing line after it when it raised and no attempt remains. *)
Definition failure_lines (cfg : AutomationConfig) (pipeline : pipeline_stub)
    (attempt : nat) : list message :=
  match pipeline attempt with
  | Returns None => [NoResult]
  | Returns (Some _) => []
  | Raises e =>
      FailedOnAttempt attempt (str e)
      :: (if attempt <? MAX_RETRIES cfg then [] else [FailedAfter (MAX_RETRIES cfg)])
  end.

End Jobs.

(** ** weather_dashboard.py: the cards, the summary, the alert history *)

Module Panels.
Import Py Dashboard.
Local Open Scope string_scope.

(** Line 121, [df['date'].max()]: no date ([NaT]) for the empty frame. *)
Definition today (df : list forecast_row) : option Z :=
  match df with
  | [] => None
  | r :: rest => Some (fold_left Z.max (map date rest) (date r))
  end.

Definition by_city (a b : forecast_row) : bool := String.leb (city a) (city b).

(** Line 122, [df[df['date'] == today].sort_values('city')]. *)
Definition current_temps (df : list forecast_row) : list forecast_row :=
  match today df with
  | Some t => order_by by_city (filter (fun r => (date r =? t)%Z) df)
  | None => []
  end.

(** The four backgrounds of lines 134-141. *)
Inductive gradient : Type := Hot | Warm | Mild | Cool.

Definition bg_color (temp : Q) : gradient :=
  if Qle_bool 90 temp then Hot
  else if Qle_bool 75 temp then Warm
  else if Qle_bool 60 temp then Mild
  else Cool.

Record card : Type := {
  column : nat;
  background : gradient;
  on_card : forecast_row
}.

(** [cols[col_idx]] on the list [st.columns(ncols)] returns. *)
Definition cols_at (ncols col_idx : nat) : completion nat :=
  if (col_idx <? ncols)%nat then Normal col_idx
  else Raised (Exception "IndexError" "list index out of range").

(** The loop of lines 129-163, from index [idx] on. *)
Fixpoint place_cards (ncols idx : nat) (rows : list forecast_row)
    : completion (list card) :=
  match rows with
  | [] => Normal []
  | row :: rest =>
      let col_idx := (idx mod 4)%nat in
      match cols_at ncols col_idx with
      | Raised e => Raised e
      | Normal c =>
          match place_cards ncols (S idx) rest with
          | Raised e => Raised e
          | Normal cards =>
              Normal ({| column := c; background := bg_color (temp_avg row);
                         on_card := row |} :: cards)
          end
      end
  end.

(** Lines 124-163. *)
Definition temperature_cards (df : list forecast_row) : completion (list card) :=
  let current := current_temps df in
  if (0 <? List.length current)%nat then
    let num_cities := List.length current in
    place_cards (Nat.min num_cities 4) 0 current
  else Normal [].

(** [series.idxmax()] and [series.idxmin()] followed by [.loc]: the first
    row that holds the largest (smallest) value of the column. *)
Fixpoint first_best (better : Q -> Q -> bool) (key : forecast_row -> Q)
    (best : forecast_row) (rest : list forecast_row) : forecast_row :=
  match rest with
  | [] => best
  | r :: rest' =>
      first_best better key (if better (key r) (key best) then r else best) rest'
  end.

Definition idxmax (key : forecast_row -> Q) (rows : list forecast_row)
    : option forecast_row :=
  match rows with
  | [] => None
  | r :: rest => Some (first_best (fun x y => negb (Qle_bool x y)) key r rest)
  end.

Definition idxmin (key : forecast_row -> Q) (rows : list forecast_row)
    : option forecast_row :=
  match rows with
  | [] => None
  | r :: rest => Some (first_best (fun x y => negb (Qle_bool y x)) key r rest)
  end.

(** Lines 169-191. *)
Definition hottest_city (df : list forecast_row) : option forecast_row :=
  idxmax temp_max (current_temps df).
Definition coolest_city (df : list forecast_row) : option forecast_row :=
  idxmin temp_min (current_temps df).
Definition highest_humidity (df : list forecast_row) : option forecast_row :=
  idxmax humidity (current_temps df).
Definition highest_wind (df : list forecast_row) : option forecast_row :=
  idxmax wind_speed (current_temps df).

(** Lines 535-549: the four metrics of the history section, over all the
    rows of the frame. *)
Definition tornado_count (alerts_df : list alert_row) : nat :=
  List.length (filter (fun a => str_contains ["Tornado"] (event a)) alerts_df).
Definition thunderstorm_count (alerts_df : list alert_row) : nat :=
  List.length (filter (fun a => str_contains ["Severe Thunderstorm"] (event a)) alerts_df).
Definition flood_count (alerts_df : list alert_row) : nat :=
  List.length (filter (fun a => str_contains ["Flood"] (event a)) alerts_df).
Definition total_alerts (alerts_df : list alert_row) : nat := List.length alerts_df.

(** [alerts_df['extracted_at'].dt.date], as a day number. *)
Definition day_of (a : alert_row) : Z := (extracted_at a / 86400)%Z.

(** One more alert on day [d], in a table of days in increasing order. *)
Fixpoint tally (d : Z) (t : list (Z * nat)) : list (Z * nat) :=
  match t with
  | [] => [(d, 1%nat)]
  | (d', n) :: t' =>
      if (d <? d')%Z then (d, 1%nat) :: t
      else if (d =? d')%Z then (d', S n) :: t'
      else (d', n) :: tally d t'
  end.

(** Line 554, [alerts_df.groupby(...dt.date).size().reset_index()]: the
    days that occur, in increasing order, each with its number of rows. *)
Definition alert_timeline (alerts_df : list alert_row) : list (Z * nat) :=
  fold_right (fun a t => tally (day_of a) t) [] alerts_df.


(** [int(x)] on a float: the fraction is dropped, towards zero. *)
Definition python_int (x : Q) : Z :=
  if Qle_bool 0 x then Qfloor x else Qceiling x.

(** [df[col].max()] and [df[col].min()] on a frame with a first row [r]. *)
Definition largest (key : forecast_row -> Q) (r : forecast_row)
    (rest : list forecast_row) : Q :=
  fold_left (fun m x => if Qle_bool m (key x) then key x else m) rest (key r).

Definition smallest (key : forecast_row -> Q) (r : forecast_row)
    (rest : list forecast_row) : Q :=
  fold_left (fun m x => if Qle_bool (key x) m then key x else m) rest (key r).

(** What the three sidebar widgets return when the user touches nothing
    (lines 274-293): the first option ['All'], the whole range of dates,
    and the slider at its two ends, [int(df['temp_min'].min())] and
    [int(df['temp_max'].max())]. On the empty frame the script stops with
    an error before it gets there. *)
Definition default_sidebar (df : list forecast_row) : option sidebar :=
  match df with
  | [] => None
  | r :: rest =>
      Some {| selected_city := "All";
              date_range := [fold_left Z.min (map date rest) (date r);
                             fold_left Z.max (map date rest) (date r)];
              temp_range := (python_int (smallest temp_min r rest),
                             python_int (largest temp_max r rest)) |}
  end.



(** The test the three sidebar filters apply to a row, taken together. *)
Definition kept (ui : sidebar) (r : forecast_row) : bool :=
  (if negb (selected_city ui =? "All") then city r =? selected_city ui else true)
  && match date_range ui with
     | [d0; d1] => (d0 <=? date r)%Z && (date r <=? d1)%Z
     | _ => true
     end
  && in_band ui r.

(** The four parts of the section, for a frame that has recent rows. *)
Definition tornado_part (recent : list alert_row) : list widget :=
  if (0 <? List.length (tornado_alerts recent))%nat
  then st_error TornadoAlert :: map expander_full (head3 (tornado_alerts recent))
  else [].

Definition thunderstorm_part (recent : list alert_row) : list widget :=
  if (0 <? List.length (thunderstorm_alerts recent))%nat
  then st_warning SevereThunderstormWarning
       :: map expander_full (head3 (thunderstorm_alerts recent))
  else [].

Definition other_part (recent : list alert_row) : list widget :=
  if (0 <? List.length (other_severe_alerts recent))%nat
  then st_warning (OtherSevereActive (List.length (other_severe_alerts recent)))
       :: map expander_short (head3 (other_severe_alerts recent))
  else [].

Definition advisory_part (recent : list alert_row) : list widget :=
  if (0 <? List.length (moderate_alerts recent))%nat
  then [st_info (AdvisoriesActive (List.length (moderate_alerts recent)))]
  else [].

(** The cards follow each other by city name. *)
Definition in_city_order (a b : forecast_row) : Prop :=
  String.leb (city a) (city b) = true.

(** What the handler of lines 628-631 puts on the page. *)
Definition error_page (detail : string) : list widget :=
  [st_error (ErrorLoadingData detail);
   st_info MakeSurePipelineHasRun;
   st_info RunPipelineFirst].

(** The number of rows of a day, and the rows a timeline accounts for. *)
Definition count_on (d : Z) (alerts_df : list alert_row) : nat :=
  List.length (filter (fun a => (day_of a =? d)%Z) alerts_df).

Definition bars_total (t : list (Z * nat)) : nat :=
  fold_right (fun b acc => (snd b + acc)%nat) 0%nat t.

(** The statement at one world. *)
Definition tame_at {A} (c : eff world A) (w : world) : Prop :=
  match fst (c w) with
  | Normal _ => True
  | Raised e => is_Exception e = true
  end.

(** The statements inside the [try] of line 110, lines 111-626. *)
Definition script (now : Z) (s : sections) : eff world unit :=
  (df <- load_forecast_data ;;
   alerts_df <- load_alerts_data ;;
   draw (current_temperatures s df) ;;
   st (alerts_banner now alerts_df) ;;
   ui <- ask (sidebar_choices s df) ;;
   let filtered := filtered_df ui df in
   draw (metrics_and_charts s df filtered) ;;
   draw (alerts_history s alerts_df) ;;
   draw (data_table s filtered) ;;
   st [st_download_button filtered] ;;
   draw (statistics s filtered))%py.

Definition is_expander (w : widget) : bool :=
  match w with st_expander _ _ _ _ => true | _ => false end.

(** A statement that does not end by raising anything outside the
    [Exception] hierarchy. *)
Definition tame {A} (c : eff world A) : Prop :=
  forall w, match fst (c w) with
            | Normal _ => True
            | Raised e => is_Exception e = true
            end.

Definition tame_drawing (d : drawn) : Prop :=
  match snd d with Some e => is_Exception e = true | None => True end.

(** Sections and a store that raise nothing but instances of [Exception]. *)
Definition tame_sections (s : sections) : Prop :=
  (forall df, tame_drawing (current_temperatures s df))
  /\ (forall df e, sidebar_choices s df = inr e -> is_Exception e = true)
  /\ (forall df f, tame_drawing (metrics_and_charts s df f))
  /\ (forall a, tame_drawing (alerts_history s a))
  /\ (forall f, tame_drawing (data_table s f))
  /\ (forall f, tame_drawing (statistics s f)).

Definition tame_store (db : option database) : Prop :=
  match db with
  | Some d =>
      match forecast_data d with
      | Failing e => is_Exception e = true
      | _ => True
      end
  | None => True
  end.

End Panels.

(** ** More sample inputs *)

Module MoreSamples.
Import Py Runner Samples Jobs.
Local Open Scope string_scope.

(** Nothing on the first invocation, an error on the second, a result
    from the third on. *)
Definition patchy : pipeline_stub :=
  fun k => match k with
           | 1 => Returns None
           | 2 => Raises (Exception "ConnectionError" "timed out")
           | _ => Returns (Some a_result)
           end.

Definition five_tries : AutomationConfig :=
  {| MAX_RETRIES := 5; RETRY_DELAY_MINUTES := 5 |}.

(** A store with the three alerts of the triage example. *)
Definition watched : Dashboard.database :=
  {| Dashboard.forecast_data := Dashboard.Present forecasts;
     Dashboard.alerts_data :=
       Dashboard.Present [flood_watch; tornado_watch; tornado_warning "Extreme"] |}.

(** Highs that are not whole numbers. *)
Definition july : list Dashboard.forecast_row :=
  [{| Dashboard.city := "Austin"; Dashboard.date := 19905;
      Dashboard.temp_min := (771 # 10)%Q; Dashboard.temp_max := (1013 # 10)%Q;
      Dashboard.temp_avg := (892 # 10)%Q;
      Dashboard.humidity := 40; Dashboard.wind_speed := 7;
      Dashboard.precipitation_prob := 5; Dashboard.conditions := "clear sky" |};
   {| Dashboard.city := "Dallas"; Dashboard.date := 19905;
      Dashboard.temp_min := (790 # 10)%Q; Dashboard.temp_max := (995 # 10)%Q;
      Dashboard.temp_avg := (893 # 10)%Q;
      Dashboard.humidity := 38; Dashboard.wind_speed := 11;
      Dashboard.precipitation_prob := 0; Dashboard.conditions := "few clouds" |}].



(** Four cities; the three of the latest date differ in highs and lows,
    and the row of the day before is hotter and cooler than all of them. *)
Definition spread : list Dashboard.forecast_row :=
  [a_forecast "El Paso" 19904 50 110; a_forecast "Houston" 19905 72 99;
   a_forecast "Dallas" 19905 65 95; a_forecast "Austin" 19905 70 101].

(** Sections of which the charts stop with a [ValueError] after drawing. *)
Definition broken_charts : Dashboard.sections :=
  {| Dashboard.current_temperatures := fun _ => ([], None);
     Dashboard.sidebar_choices := fun _ => inl (all_cities 40 92);
     Dashboard.metrics_and_charts :=
       fun _ _ => ([Dashboard.st_other "Key Metrics"],
                   Some (Exception "ValueError" "cannot convert float NaN to integer"));
     Dashboard.alerts_history := fun _ => ([], None);
     Dashboard.data_table := fun _ => ([], None);
     Dashboard.statistics := fun _ => ([], None) |}.

Definition quiet_turn : turn := {| due := false; interrupted := false |}.
Definition due_turn : turn := {| due := true; interrupted := false |}.
Definition ctrl_c : turn := {| due := false; interrupted := true |}.

End MoreSamples.

(* ====================================================================== *)
(** * Part II. Properties                                                   *)
(* ====================================================================== *)

(** ** The retry loop *)

Section RetryLoop.
Import Py Runner.

Variable cfg : AutomationConfig.
Variable pipeline : pipeline_stub.

Let N := MAX_RETRIES cfg.
Let D := RETRY_DELAY_MINUTES cfg.

(** One pass through the loop body, case by case. *)
Lemma attempt_body_eq (attempt : nat) (w : world) :
  attempt_body cfg pipeline attempt w =
  let k := S (invocations w) in
  match pipeline k with
  | Returns (Some r) =>
      (Normal (Some true),
       extend w (prologue cfg attempt k ++
                 [Logged INFO Completed;
                  Logged INFO (ExecutionTime (execution_time r));
                  Logged INFO (CurrentRecords (List.length (data_current r)));
                  Logged INFO (ForecastRecords (List.length (data_forecast r)))]))
  | Returns None =>
      (Normal None, extend w (prologue cfg attempt k ++ [Logged ERROR NoResult]))
  | Raises e =>
      if is_Exception e then
        if attempt <? N then
          (Normal None,
           extend w (prologue cfg attempt k ++
                     [Logged ERROR (FailedOnAttempt attempt (str e));
                      Logged INFO (Retrying D); Slept (D * 60)]))
        else
          (Normal (Some false),
           extend w (prologue cfg attempt k ++
                     [Logged ERROR (FailedOnAttempt attempt (str e));
                      Logged ERROR (FailedAfter N)]))
      else (Raised e, extend w (prologue cfg attempt k))
  end.
Proof.
  unfold attempt_body, try_except_Exception, bind, logger_info, logger_error,
    time_sleep, emit, modify, run_pipeline, ret, extend, prologue.
  cbn [invocations trace]. fold N D.
  destruct (pipeline (S (invocations w))) as [[r|]|e]; cbn [invocations trace].
  - rewrite <- !app_assoc. reflexivity.
  - rewrite <- !app_assoc. reflexivity.
  - destruct (is_Exception e); cbn [invocations trace].
    + destruct (attempt <? N); cbn [invocations trace];
        rewrite <- !app_assoc; reflexivity.
    + rewrite <- !app_assoc. reflexivity.
Qed.

Lemma attempts_made_app (s t : list event) :
  attempts_made (s ++ t) = attempts_made s ++ attempts_made t.
Proof. apply flat_map_app. Qed.

Lemma sleeps_app (s t : list event) : sleeps (s ++ t) = sleeps s ++ sleeps t.
Proof. apply flat_map_app. Qed.

Lemma errors_logged_app (s t : list event) :
  errors_logged (s ++ t) = errors_logged s ++ errors_logged t.
Proof. apply flat_map_app. Qed.

(** A run of [m] raising attempts, none of them the last one allowed, is
    [m] invocations and [m] sleeps of [D] minutes. *)
Lemma raising_attempts (m : nat) : forall (a : nat) (rest : list nat) (w : world),
  S (invocations w) = a ->
  a + m <= N ->
  (forall k, a <= k < a + m -> raises_error (pipeline k) = true) ->
  exists w',
    for_attempt cfg pipeline (seq a m ++ rest) w = for_attempt cfg pipeline rest w'
    /\ invocations w' = invocations w + m
    /\ attempts_made (trace w') = attempts_made (trace w) ++ seq a m
    /\ sleeps (trace w') = sleeps (trace w) ++ repeat (D * 60) m.
Proof.
  induction m as [|m IH]; intros a rest w Ha Hle Hraise.
  - exists w. cbn. rewrite Nat.add_0_r, !app_nil_r. auto.
  - assert (Hk : raises_error (pipeline a) = true) by (apply Hraise; lia).
    destruct (IH (S a) rest
                (extend w (prologue cfg a a ++
                   [Logged ERROR (FailedOnAttempt a
                      (str match pipeline a with Raises e => e | _ => KeyboardInterrupt end));
                    Logged INFO (Retrying D); Slept (D * 60)])))
      as (w' & Hrun & Hinv & Hatt & Hsl).
    + cbn. lia.
    + lia.
    + intros k Hk'. apply Hraise. lia.
    + exists w'. split; [|split; [|split]].
      * cbn [seq app for_attempt]. unfold bind at 1.
        rewrite attempt_body_eq. cbv zeta. rewrite Ha.
        destruct (pipeline a) as [res|e]; [discriminate|].
        cbn in Hk. rewrite Hk.
        replace (a <? N) with true by (symmetry; apply Nat.ltb_lt; lia).
        exact Hrun.
      * rewrite Hinv. cbn. lia.
      * rewrite Hatt. cbn [extend trace].
        rewrite !attempts_made_app. cbn. rewrite <- app_assoc. reflexivity.
      * rewrite Hsl. cbn [extend trace].
        rewrite !sleeps_app. cbn. rewrite <- app_assoc. reflexivity.
Qed.

(** A run of failing attempts that ends with the last one allowed. *)
Lemma failing_attempts (m : nat) : forall (a : nat) (w : world),
  S (invocations w) = a ->
  a + m = S N ->
  (forall k, a <= k < a + m -> fails (pipeline k) = true) ->
  exists w',
    for_attempt cfg pipeline (seq a m) w = (Normal false, w')
    /\ attempts_made (trace w') = attempts_made (trace w) ++ seq a m.
Proof.
  induction m as [|m IH]; intros a w Ha Hsum Hfail.
  - exists w. cbn. rewrite app_nil_r. auto.
  - assert (Hk : fails (pipeline a) = true) by (apply Hfail; lia).
    cbn [seq for_attempt]. unfold bind at 1.
    rewrite attempt_body_eq. cbv zeta. rewrite Ha.
    destruct (pipeline a) as [[r|]|e]; cbn in Hk; try discriminate.
    + edestruct (IH (S a)) as (w' & Hrun & Hatt);
        [ | | | exists w'; split; [exact Hrun|] ].
      * cbn. lia.
      * lia.
      * intros k Hk'. apply Hfail. lia.
      * rewrite Hatt. cbn [extend trace].
        rewrite !attempts_made_app. cbn. rewrite <- app_assoc. reflexivity.
    + rewrite Hk. destruct (Nat.ltb_spec a N) as [Hlt|Hge].
      * edestruct (IH (S a)) as (w' & Hrun & Hatt);
          [ | | | exists w'; split; [exact Hrun|] ].
        -- cbn. lia.
        -- lia.
        -- intros k Hk'. apply Hfail. lia.
        -- rewrite Hatt. cbn [extend trace].
           rewrite !attempts_made_app. cbn. rewrite <- app_assoc. reflexivity.
      * assert (m = 0) by lia. subst m.
        eexists. split; [reflexivity|].
        cbn [extend trace]. rewrite !attempts_made_app. cbn. reflexivity.
Qed.

End RetryLoop.

Section RetryLoopTotal.
Import Py Runner.

Variable cfg : AutomationConfig.
Variable pipeline : pipeline_stub.

(** Nothing but instances of [Exception] is ever raised by the pipeline. *)
Hypothesis only_Exceptions :
  forall k e, pipeline k = Raises e -> is_Exception e = true.


End RetryLoopTotal.

Section NoResultBranch.
Import Py Runner.

(** The [else] branch of line 102, at any attempt and for any settings:
    one error line without the attempt number, no sleep, and the loop
    goes on. *)
Lemma no_result_attempt (cfg : AutomationConfig) (pipeline : pipeline_stub)
    (attempt : nat) (w : world) :
  pipeline (S (invocations w)) = Returns None ->
  attempt_body cfg pipeline attempt w
  = (Normal None,
     extend w (prologue cfg attempt (S (invocations w)) ++ [Logged ERROR NoResult])).
Proof. intros H. rewrite attempt_body_eq. cbv zeta. rewrite H. reflexivity. Qed.

(** A run of attempts that all return nothing: every one is made, none
    is followed by a sleep, each leaves the same unnumbered error line. *)
Lemma no_result_attempts (cfg : AutomationConfig) (pipeline : pipeline_stub)
    (m : nat) : forall (a : nat) (w : world),
  S (invocations w) = a ->
  (forall k, a <= k < a + m -> pipeline k = Returns None) ->
  exists w',
    for_attempt cfg pipeline (seq a m) w = (Normal false, w')
    /\ attempts_made (trace w') = attempts_made (trace w) ++ seq a m
    /\ sleeps (trace w') = sleeps (trace w)
    /\ errors_logged (trace w') = errors_logged (trace w) ++ repeat NoResult m.
Proof.
  induction m as [|m IH]; intros a w Ha Hnone.
  - exists w. cbn. rewrite !app_nil_r. auto.
  - cbn [seq for_attempt]. unfold bind at 1.
    rewrite no_result_attempt by (rewrite Ha; apply Hnone; lia).
    rewrite Ha.
    edestruct (IH (S a)) as (w' & Hrun & Hatt & Hsl & Herr);
      [ | | exists w'; split; [exact Hrun|] ].
    + cbn. lia.
    + intros k Hk. apply Hnone. lia.
    + rewrite Hatt, Hsl, Herr. cbn [extend trace].
      rewrite !attempts_made_app, !sleeps_app, !errors_logged_app. cbn.
      rewrite !app_nil_r, <- !app_assoc. auto.
Qed.

End NoResultBranch.

Section RetryProperties.
Import Py Runner Samples.

(** C1. Whatever the maximum N >= 1 and the delay D: when the pipeline
    raises an error on each of the attempts 1..N-1 and returns a truthy
    result on attempt N, [run_pipeline_with_retry] returns [True], has
    invoked the pipeline exactly N times (attempts 1..N) and has slept
    exactly N-1 times, D*60 seconds each. *)
Theorem retry_succeeds_on_last_attempt (N D : nat) (pipeline : pipeline_stub) :
  1 <= N ->
  (forall k, 1 <= k < N -> raises_error (pipeline k) = true) ->
  returns_truthy (pipeline N) = true ->
  exists w,
    run_pipeline_with_retry {| MAX_RETRIES := N; RETRY_DELAY_MINUTES := D |}
      pipeline start = (Normal true, w)
    /\ attempts_made (trace w) = seq 1 N
    /\ List.length (attempts_made (trace w)) = N
    /\ sleeps (trace w) = repeat (D * 60) (N - 1).
Proof.
  intros HN Hraise Hok.
  destruct N as [|n]; [lia|].
  set (cfg := {| MAX_RETRIES := S n; RETRY_DELAY_MINUTES := D |}).
  assert (Hseq : seq 1 (S n) = seq 1 n ++ [S n]) by apply seq_S.
  unfold run_pipeline_with_retry, range_from_1.
  change (MAX_RETRIES cfg) with (S n). rewrite Hseq.
  destruct (raising_attempts cfg pipeline n (a := 1) [S n] start)
    as (w1 & Hrun & Hinv & Hatt & Hsl).
  - reflexivity.
  - cbn. lia.
  - intros k Hk. apply Hraise. lia.
  - rewrite Hrun. cbn [for_attempt]. unfold bind at 1.
    rewrite attempt_body_eq. cbv zeta.
    rewrite Hinv. cbn [start invocations Nat.add].
    destruct (pipeline (S n)) as [[r|]|e]; cbn in Hok; try discriminate.
    eexists. split; [reflexivity|].
    cbn [extend trace]. rewrite attempts_made_app, sleeps_app, Hatt, Hsl.
    cbn. rewrite app_nil_r, Nat.sub_0_r.
    repeat split.
    rewrite <- Hseq. apply length_seq.
Qed.

Lemma retry_succeeds_on_last_attempt_witness :
  1 <= 3
  /\ exists w,
    run_pipeline_with_retry {| MAX_RETRIES := 3; RETRY_DELAY_MINUTES := 5 |}
      third_time_lucky start = (Normal true, w)
    /\ attempts_made (trace w) = seq 1 3
    /\ List.length (attempts_made (trace w)) = 3
    /\ sleeps (trace w) = repeat (5 * 60) (3 - 1).
Proof.
  split; [lia|].
  apply (retry_succeeds_on_last_attempt (N := 3) 5 third_time_lucky).
  - lia.
  - intros k Hk. assert (Hc : k = 1 \/ k = 2) by lia.
    destruct Hc as [-> | ->]; reflexivity.
  - reflexivity.
Defined.

(** C2. Whatever the maximum N: when every invocation fails (raises an
    error or returns no result), [run_pipeline_with_retry] returns [False]
    after exactly the attempts 1..N; there is no attempt N+1. *)
Theorem retry_gives_up_after_max (N D : nat) (pipeline : pipeline_stub) :
  (forall k, 1 <= k <= N -> fails (pipeline k) = true) ->
  exists w,
    run_pipeline_with_retry {| MAX_RETRIES := N; RETRY_DELAY_MINUTES := D |}
      pipeline start = (Normal false, w)
    /\ attempts_made (trace w) = seq 1 N
    /\ List.length (attempts_made (trace w)) = N
    /\ ~ In (S N) (attempts_made (trace w)).
Proof.
  intros Hfail.
  set (cfg := {| MAX_RETRIES := N; RETRY_DELAY_MINUTES := D |}).
  destruct (failing_attempts cfg pipeline N (a := 1) start) as (w & Hrun & Hatt).
  - reflexivity.
  - cbn. lia.
  - intros k Hk. apply Hfail. lia.
  - exists w. split; [exact Hrun|]. rewrite Hatt.
    change (attempts_made (trace start) ++ seq 1 N) with (seq 1 N).
    repeat split.
    + apply length_seq.
    + rewrite in_seq. lia.
Qed.

Lemma retry_gives_up_after_max_witness :
  exists w,
    run_pipeline_with_retry {| MAX_RETRIES := 3; RETRY_DELAY_MINUTES := 5 |}
      always_raises start = (Normal false, w)
    /\ attempts_made (trace w) = seq 1 3
    /\ List.length (attempts_made (trace w)) = 3
    /\ ~ In 4 (attempts_made (trace w)).
Proof.
  apply (retry_gives_up_after_max (N := 3) 5 always_raises).
  intros k _. reflexivity.
Defined.




(** C4, where the code departs from it. Whatever the maximum N and the
    delay D: when the invocations return no result, the attempts 1..N
    follow each other without a single sleep, attempts remaining or not,
    and each failure is logged by the same line, which carries no attempt
    number. *)
Theorem no_result_is_retried_without_delay (N D : nat) (pipeline : pipeline_stub) :
  (forall k, 1 <= k <= N -> pipeline k = Returns None) ->
  exists w,
    run_pipeline_with_retry {| MAX_RETRIES := N; RETRY_DELAY_MINUTES := D |}
      pipeline start = (Normal false, w)
    /\ attempts_made (trace w) = seq 1 N
    /\ sleeps (trace w) = []
    /\ errors_logged (trace w) = repeat NoResult N.
Proof.
  intros Hnone.
  set (cfg := {| MAX_RETRIES := N; RETRY_DELAY_MINUTES := D |}).
  destruct (no_result_attempts cfg pipeline N (a := 1) start)
    as (w & Hrun & Hatt & Hsl & Herr).
  - reflexivity.
  - intros k Hk. apply Hnone. lia.
  - exists w. split; [exact Hrun|]. rewrite Hatt, Hsl, Herr. auto.
Qed.

Lemma no_result_is_retried_without_delay_witness :
  exists w,
    run_pipeline_with_retry {| MAX_RETRIES := 3; RETRY_DELAY_MINUTES := 5 |}
      returns_nothing start = (Normal false, w)
    /\ attempts_made (trace w) = seq 1 3
    /\ sleeps (trace w) = []
    /\ errors_logged (trace w) = repeat NoResult 3.
Proof.
  apply (no_result_is_retried_without_delay (N := 3) 5 returns_nothing).
  intros k _. reflexivity.
Defined.

(** The two branches side by side, with the settings of the source: the
    raising pipeline is waited for and its error lines are numbered, the
    one that returns nothing gets neither. *)
Example raising_and_returning_nothing :
  (let w := snd (run_pipeline_with_retry default_config always_raises start) in
   attempts_made (trace w) = [1; 2; 3]
   /\ sleeps (trace w) = [300; 300]
   /\ errors_logged (trace w) =
        [FailedOnAttempt 1 "timed out"; FailedOnAttempt 2 "timed out";
         FailedOnAttempt 3 "timed out"; FailedAfter 3])
  /\
  (let w := snd (run_pipeline_with_retry default_config returns_nothing start) in
   attempts_made (trace w) = [1; 2; 3]
   /\ sleeps (trace w) = []
   /\ errors_logged (trace w) = [NoResult; NoResult; NoResult]).
Proof. repeat split. Qed.

End RetryProperties.

(** ** The dashboard and the store *)

Section StoreUntouched.
Import Py Dashboard.

Lemma keeps_ret {A} (a : A) : keeps_store (ret a).
Proof. intros w. reflexivity. Qed.

Lemma keeps_raise {A} (e : exn) : keeps_store (raise (A := A) e).
Proof. intros w. reflexivity. Qed.

Lemma keeps_bind {A B} (c : eff world A) (k : A -> eff world B) :
  keeps_store c -> (forall a, keeps_store (k a)) -> keeps_store (bind c k).
Proof.
  intros Hc Hk w. unfold bind. specialize (Hc w).
  destruct (c w) as [[a|e] w1]; cbn in *.
  - rewrite Hk. exact Hc.
  - exact Hc.
Qed.

Lemma keeps_try_except {A} (c h : eff world A) :
  keeps_store c -> keeps_store h -> keeps_store (try_except c h).
Proof.
  intros Hc Hh w. unfold try_except. specialize (Hc w).
  destruct (c w) as [[a|e] w1]; cbn in *.
  - exact Hc.
  - rewrite Hh. exact Hc.
Qed.

Lemma keeps_try_except_Exception {A} (c : eff world A) (h : exn -> eff world A) :
  keeps_store c -> (forall e, keeps_store (h e)) ->
  keeps_store (try_except_Exception c h).
Proof.
  intros Hc Hh w. unfold try_except_Exception. specialize (Hc w).
  destruct (c w) as [[a|e] w1]; cbn in *.
  - exact Hc.
  - destruct (is_Exception e); cbn; [rewrite Hh|]; exact Hc.
Qed.

Lemma keeps_st (ws : list widget) : keeps_store (st ws).
Proof. intros w. reflexivity. Qed.

Lemma keeps_draw (d : drawn) : keeps_store (draw d).
Proof.
  unfold draw. apply keeps_bind; [apply keeps_st|].
  intros _. destruct (snd d); [apply keeps_raise | apply keeps_ret].
Qed.

Lemma keeps_ask (c : sidebar + exn) : keeps_store (ask c).
Proof. destruct c; [apply keeps_ret | apply keeps_raise]. Qed.

(** Opening the file read-only never creates it. *)
Lemma keeps_get_database_connection : keeps_store get_database_connection.
Proof.
  intros w. unfold get_database_connection, duckdb_connect.
  destruct (file w) eqn:Hf; cbn; congruence.
Qed.

Lemma connection_is_read_only (w w' : world) (con : connection) :
  get_database_connection w = (Normal con, w') -> read_only con = true.
Proof.
  unfold get_database_connection, duckdb_connect.
  destruct (file w); intros H; inversion H; reflexivity.
Qed.

(** Through a read-only connection no statement changes the file, the
    inserts included: they are refused. *)
Lemma keeps_execute_read_only {k} (con : connection) (sql : statement k) :
  read_only con = true -> keeps_store (execute con sql).
Proof.
  intros Hro w. unfold execute. destruct (file w) as [db|] eqn:Hf.
  - destruct sql; rewrite ?Hro; cbn; congruence.
  - cbn. congruence.
Qed.

(** The two queries of the script change nothing on any connection. *)
Lemma keeps_select_forecast (con : connection) :
  keeps_store (execute con select_forecast_data).
Proof. intros w. unfold execute. destruct (file w) eqn:Hf; cbn; congruence. Qed.

Lemma keeps_select_alerts (con : connection) :
  keeps_store (execute con select_alerts_data).
Proof. intros w. unfold execute. destruct (file w) eqn:Hf; cbn; congruence. Qed.

Lemma keeps_load_forecast_data : keeps_store load_forecast_data.
Proof.
  unfold load_forecast_data.
  apply keeps_bind; [apply keeps_get_database_connection|]. intros con.
  apply keeps_bind; [apply keeps_select_forecast|]. intros df.
  apply keeps_ret.
Qed.

Lemma keeps_load_alerts_data : keeps_store load_alerts_data.
Proof.
  unfold load_alerts_data. apply keeps_try_except; [|apply keeps_ret].
  apply keeps_bind; [apply keeps_get_database_connection|]. intros con.
  apply keeps_bind; [apply keeps_select_alerts|]. intros df.
  apply keeps_ret.
Qed.

Lemma keeps_main (now : Z) (s : sections) : keeps_store (main now s).
Proof.
  unfold main. apply keeps_try_except_Exception.
  - apply keeps_bind; [apply keeps_load_forecast_data|]. intros df.
    apply keeps_bind; [apply keeps_load_alerts_data|]. intros alerts_df.
    apply keeps_bind; [apply keeps_draw|]. intros _.
    apply keeps_bind; [apply keeps_st|]. intros _.
    apply keeps_bind; [apply keeps_ask|]. intros ui.
    apply keeps_bind; [apply keeps_draw|]. intros _.
    apply keeps_bind; [apply keeps_draw|]. intros _.
    apply keeps_bind; [apply keeps_draw|]. intros _.
    apply keeps_bind; [apply keeps_st|]. intros _.
    apply keeps_draw.
  - intros e. apply keeps_st.
Qed.

(** The flag is what protects the file: a writable connection creates a
    missing file, and its inserts go through. *)
Example writable_connection_would_write :
  file (snd (duckdb_connect false {| file := None; page := [] |})) <> None
  /\ file (snd (execute {| read_only := false |} (insert_alert Samples.flood_watch)
                  {| file := Some {| forecast_data := Absent; alerts_data := Present [] |};
                     page := [] |}))
     = Some {| forecast_data := Absent; alerts_data := Present [Samples.flood_watch] |}.
Proof. split; [discriminate | reflexivity]. Qed.

End StoreUntouched.

Section AlertLoading.
Import Py Dashboard Samples.
Local Open Scope string_scope.

(** Loading the alerts never raises and never reports: a missing
    relation, a missing file and a failed read all come back as the empty
    frame. *)
Lemma load_alerts_data_total (w : world) :
  exists df, load_alerts_data w = (Normal df, w).
Proof.
  unfold load_alerts_data, try_except, bind, get_database_connection,
    duckdb_connect, execute, ret.
  destruct w as [[db|] pg]; cbn.
  - destruct (alerts_data db); cbn; eauto.
  - eauto.
Qed.

(** C5, at the input where the code departs from it. A missing alerts
    relation is read as no alerts; so is a relation whose read raises,
    whatever the exception: nothing reaches the handler that shows the
    inline error, and the page of the pass reports that no alert is
    active. *)
Theorem alerts_read_failure_is_read_as_no_alerts
    (fc : relation forecast_row) (e : exn) (pg : list widget) :
  (let w := {| file := Some {| forecast_data := fc; alerts_data := Absent |};
               page := pg |} in
   load_alerts_data w = (Normal [], w))
  /\
  (let w := {| file := Some {| forecast_data := fc; alerts_data := Failing e |};
               page := pg |} in
   load_alerts_data w = (Normal [], w))
  /\
  (let shown := page (snd (render_pass now0 quiet (Some unreadable_alerts))) in
   In (st_success NoActiveAlerts) shown
   /\ forall d, ~ In (st_error (ErrorLoadingData d)) shown).
Proof.
  split; [reflexivity|]. split; [reflexivity|].
  cbv zeta. split.
  - vm_compute. auto.
  - intros d H. vm_compute in H.
    destruct H as [H|[H|[]]]; discriminate H.
Qed.

(** C7, at the input where the code departs from it. For a frame that
    has rows, none of them recent, the banner section shows nothing: the
    clear-status line is not drawn. *)
Theorem stale_alerts_show_no_clear_status (now : Z) (alerts_df : list alert_row) :
  alerts_df <> [] ->
  recent_alerts now alerts_df = [] ->
  alerts_banner now alerts_df = []
  /\ ~ In (st_success NoActiveAlerts) (alerts_banner now alerts_df).
Proof.
  intros Hne Hstale. unfold alerts_banner.
  destruct alerts_df as [|a l]; [congruence|].
  rewrite Hstale. cbn. auto.
Qed.

Lemma stale_alerts_show_no_clear_status_witness :
  alerts_banner now0 stale_only = []
  /\ ~ In (st_success NoActiveAlerts) (alerts_banner now0 stale_only).
Proof.
  apply (stale_alerts_show_no_clear_status now0 (alerts_df := stale_only)).
  - discriminate.
  - reflexivity.
Defined.

(** The clear-status line is drawn for the empty frame, and only for it. *)
Lemma clear_status_iff_empty (now : Z) (alerts_df : list alert_row) :
  In (st_success NoActiveAlerts) (alerts_banner now alerts_df) <-> alerts_df = [].
Proof.
  split.
  - destruct alerts_df as [|a l]; [reflexivity|].
    intros H. exfalso. unfold alerts_banner in H.
    cbn [List.length Nat.ltb Nat.leb] in H. cbv zeta in H.
    repeat match type of H with
           | In _ (if ?b then _ else _) => destruct b
           | In _ (_ ++ _) => apply in_app_or in H; destruct H as [H|H]
           | In _ (_ :: _) => destruct H as [H|H]
           | In _ [] => destruct H
           | In _ (map _ _) =>
               apply in_map_iff in H; destruct H as (x & H & _);
               unfold expander_full, expander_short in H
           | _ = _ => discriminate H
           end.
  - intros ->. cbn. auto.
Qed.

End AlertLoading.

Section Triage.
Import Py Dashboard Samples.
Local Open Scope string_scope.

(** The six orders of three rows. *)
Lemma permutation_of_three {A} (a b c : A) (l : list A) :
  Permutation l [a; b; c] ->
  l = [a; b; c] \/ l = [a; c; b] \/ l = [b; a; c]
  \/ l = [b; c; a] \/ l = [c; a; b] \/ l = [c; b; a].
Proof.
  intros H.
  destruct l as [|x l]; [apply Permutation_nil in H; discriminate|].
  assert (Hx : In x [a; b; c]) by (eapply Permutation_in; [exact H | now left]).
  destruct Hx as [<-|[<-|[<-|[]]]].
  - apply Permutation_cons_inv, Permutation_sym, Permutation_length_2_inv in H.
    destruct H as [->| ->]; auto.
  - assert (H' : Permutation (b :: l) (b :: [a; c]))
      by (etransitivity; [exact H | apply perm_swap]).
    apply Permutation_cons_inv, Permutation_sym, Permutation_length_2_inv in H'.
    destruct H' as [->| ->]; auto 6.
  - assert (H' : Permutation (c :: l) (c :: [a; b])).
    { etransitivity; [exact H|].
      etransitivity; [apply perm_skip, perm_swap | apply perm_swap]. }
    apply Permutation_cons_inv, Permutation_sym, Permutation_length_2_inv in H'.
    destruct H' as [->| ->]; auto 8.
Qed.

(** The triage example with a warning whose own severity is neither
    "Moderate" nor "Minor": a "Tornado Warning" extracted one hour ago, a
    "Flood Watch" of severity "Minor" extracted two hours ago, a "Tornado
    Watch" extracted thirty hours ago. In whatever order they come, the
    banner section shows one tornado banner with the one recent tornado
    row under it, and one informational line that counts one alert;
    nothing else. *)
Theorem triage_of_the_three_rows (now : Z) (r1 r2 r3 : alert_row)
    (alerts_df : list alert_row) :
  event r1 = Some "Tornado Warning" ->
  extracted_at r1 = (now - 1 * 3600)%Z ->
  event r2 = Some "Flood Watch" ->
  severity r2 = Some "Minor" ->
  extracted_at r2 = (now - 2 * 3600)%Z ->
  event r3 = Some "Tornado Watch" ->
  extracted_at r3 = (now - 30 * 3600)%Z ->
  isin ["Moderate"; "Minor"] (severity r1) = false ->
  Permutation alerts_df [r1; r2; r3] ->
  alerts_banner now alerts_df
  = [st_error TornadoAlert; expander_full r1; st_info (AdvisoriesActive 1)].
Proof.
  intros He1 Ht1 He2 Hs2 Ht2 He3 Ht3 Hs1 Hperm.
  assert (A1 : (now - extracted_at r1 <? 86400)%Z = true)
    by (rewrite Ht1; apply Z.ltb_lt; lia).
  assert (A2 : (now - extracted_at r2 <? 86400)%Z = true)
    by (rewrite Ht2; apply Z.ltb_lt; lia).
  assert (A3 : (now - extracted_at r3 <? 86400)%Z = false)
    by (rewrite Ht3; apply Z.ltb_ge; lia).
  assert (T1 : str_contains ["Tornado"] (event r1) = true)
    by (rewrite He1; reflexivity).
  assert (T2 : str_contains ["Tornado"] (event r2) = false)
    by (rewrite He2; reflexivity).
  assert (S1 : str_contains ["Severe Thunderstorm"] (event r1) = false)
    by (rewrite He1; reflexivity).
  assert (S2 : str_contains ["Severe Thunderstorm"] (event r2) = false)
    by (rewrite He2; reflexivity).
  assert (O1 : str_contains ["Tornado"; "Severe Thunderstorm"] (event r1) = true)
    by (rewrite He1; reflexivity).
  assert (O2 : isin ["Extreme"; "Severe"] (severity r2) = false)
    by (rewrite Hs2; reflexivity).
  assert (M2 : isin ["Moderate"; "Minor"] (severity r2) = true)
    by (rewrite Hs2; reflexivity).
  apply permutation_of_three in Hperm.
  unfold alerts_banner, recent_alerts, tornado_alerts, thunderstorm_alerts,
    other_severe_alerts, moderate_alerts, head3.
  destruct Hperm as [->|[->|[->|[->|[->| ->]]]]];
    cbn [filter List.length Nat.ltb Nat.leb]; rewrite ?A1, ?A2, ?A3;
    cbn [filter List.length Nat.ltb Nat.leb]; rewrite ?T1, ?T2, ?S1, ?S2, ?O1, ?Hs1, ?M2;
    cbn [negb andb]; rewrite ?O2, ?andb_false_r;
    reflexivity.
Qed.

Lemma triage_of_the_three_rows_witness :
  alerts_banner now0 [flood_watch; tornado_watch; tornado_warning "Extreme"]
  = [st_error TornadoAlert; expander_full (tornado_warning "Extreme");
     st_info (AdvisoriesActive 1)].
Proof.
  apply (@triage_of_the_three_rows now0
           (tornado_warning "Extreme") flood_watch tornado_watch);
    try reflexivity.
  apply Permutation_sym, Permutation_cons_app with (l1 := [flood_watch; tornado_watch])
                                                    (l2 := []).
  reflexivity.
Defined.

(** The same three rows with a warning of severity "Minor", evaluated. *)
Lemma minor_tornado_warning_is_counted_twice :
  let r1 := tornado_warning "Minor" in
  (event r1 = Some "Tornado Warning" /\ (now0 - extracted_at r1 = 1 * 3600)%Z)
  /\ (event flood_watch = Some "Flood Watch" /\ severity flood_watch = Some "Minor"
      /\ (now0 - extracted_at flood_watch = 2 * 3600)%Z)
  /\ (event tornado_watch = Some "Tornado Watch"
      /\ (now0 - extracted_at tornado_watch = 30 * 3600)%Z)
  /\ alerts_banner now0 [r1; flood_watch; tornado_watch]
     = [st_error TornadoAlert; expander_full r1; st_info (AdvisoriesActive 2)]
  /\ ~ In (st_info (AdvisoriesActive 1))
          (alerts_banner now0 [r1; flood_watch; tornado_watch]).
Proof.
  cbv zeta. repeat split.
  intros H. vm_compute in H.
  destruct H as [H|[H|[H|[]]]]; discriminate H.
Qed.

(** C6, where the code departs from it. The three rows of the example,
    in whatever order, with a "Tornado Warning" that itself carries the
    severity "Moderate" or "Minor": the row is shown under the tornado
    banner and is counted again in the informational line, which reads
    two alerts instead of one. [moderate_alerts] filters the recent rows
    by severity alone; [other_severe_alerts], next to it, leaves the
    tornado rows out. *)
Theorem tornado_row_is_counted_among_the_advisories (now : Z)
    (r1 r2 r3 : alert_row) (alerts_df : list alert_row) :
  event r1 = Some "Tornado Warning" ->
  extracted_at r1 = (now - 1 * 3600)%Z ->
  event r2 = Some "Flood Watch" ->
  severity r2 = Some "Minor" ->
  extracted_at r2 = (now - 2 * 3600)%Z ->
  event r3 = Some "Tornado Watch" ->
  extracted_at r3 = (now - 30 * 3600)%Z ->
  isin ["Moderate"; "Minor"] (severity r1) = true ->
  Permutation alerts_df [r1; r2; r3] ->
  alerts_banner now alerts_df
  = [st_error TornadoAlert; expander_full r1; st_info (AdvisoriesActive 2)]
  /\ In r1 (tornado_alerts (recent_alerts now alerts_df))
  /\ In r1 (moderate_alerts (recent_alerts now alerts_df))
  /\ ~ In r1 (other_severe_alerts (recent_alerts now alerts_df)).
Proof.
  intros He1 Ht1 He2 Hs2 Ht2 He3 Ht3 Hs1 Hperm.
  assert (A1 : (now - extracted_at r1 <? 86400)%Z = true)
    by (rewrite Ht1; apply Z.ltb_lt; lia).
  assert (A2 : (now - extracted_at r2 <? 86400)%Z = true)
    by (rewrite Ht2; apply Z.ltb_lt; lia).
  assert (A3 : (now - extracted_at r3 <? 86400)%Z = false)
    by (rewrite Ht3; apply Z.ltb_ge; lia).
  assert (T1 : str_contains ["Tornado"] (event r1) = true)
    by (rewrite He1; reflexivity).
  assert (T2 : str_contains ["Tornado"] (event r2) = false)
    by (rewrite He2; reflexivity).
  assert (S1 : str_contains ["Severe Thunderstorm"] (event r1) = false)
    by (rewrite He1; reflexivity).
  assert (S2 : str_contains ["Severe Thunderstorm"] (event r2) = false)
    by (rewrite He2; reflexivity).
  assert (O1 : str_contains ["Tornado"; "Severe Thunderstorm"] (event r1) = true)
    by (rewrite He1; reflexivity).
  assert (O2 : isin ["Extreme"; "Severe"] (severity r2) = false)
    by (rewrite Hs2; reflexivity).
  assert (M2 : isin ["Moderate"; "Minor"] (severity r2) = true)
    by (rewrite Hs2; reflexivity).
  assert (Hin : In r1 alerts_df).
  { eapply Permutation_in; [apply Permutation_sym; exact Hperm | now left]. }
  assert (Hrec : In r1 (recent_alerts now alerts_df))
    by (unfold recent_alerts; apply filter_In; auto).
  split; [|split; [|split]].
  - apply permutation_of_three in Hperm.
    unfold alerts_banner, recent_alerts, tornado_alerts, thunderstorm_alerts,
      other_severe_alerts, moderate_alerts, head3.
    destruct Hperm as [->|[->|[->|[->|[->| ->]]]]];
      cbn [filter List.length Nat.ltb Nat.leb]; rewrite ?A1, ?A2, ?A3;
      cbn [filter List.length Nat.ltb Nat.leb]; rewrite ?T1, ?T2, ?S1, ?S2, ?O1, ?Hs1, ?M2;
      cbn [negb andb filter List.length Nat.ltb Nat.leb];
      rewrite ?O2, ?Hs1, ?M2, ?andb_false_r;
      cbn [negb andb filter List.length Nat.ltb Nat.leb];
      rewrite ?Hs1, ?M2; reflexivity.
  - unfold tornado_alerts. apply filter_In. auto.
  - unfold moderate_alerts. apply filter_In. auto.
  - unfold other_severe_alerts. rewrite filter_In, O1. cbn. intros (_ & H). discriminate H.
Qed.

Lemma tornado_row_is_counted_among_the_advisories_witness :
  let r1 := tornado_warning "Minor" in
  let alerts_df := [flood_watch; tornado_watch; r1] in
  alerts_banner now0 alerts_df
  = [st_error TornadoAlert; expander_full r1; st_info (AdvisoriesActive 2)]
  /\ In r1 (tornado_alerts (recent_alerts now0 alerts_df))
  /\ In r1 (moderate_alerts (recent_alerts now0 alerts_df))
  /\ ~ In r1 (other_severe_alerts (recent_alerts now0 alerts_df)).
Proof.
  apply (@tornado_row_is_counted_among_the_advisories now0
           (tornado_warning "Minor") flood_watch tornado_watch);
    try reflexivity.
  apply Permutation_sym, Permutation_cons_app with (l1 := [flood_watch; tornado_watch])
                                                    (l2 := []).
  reflexivity.
Defined.

End Triage.

Section StoreAndFilters.
Import Py Dashboard Samples.
Local Open Scope string_scope.

(** C9. No render pass changes the store: whatever the store holds (or
    if the file is missing), whatever the sections draw and wherever the
    pass stops, the file after the pass is the file before it. The
    connection every read goes through is opened read-only, and through
    such a connection no statement, an insert included, changes the file. *)
Theorem dashboard_never_mutates_store (now : Z) (s : sections)
    (db : option database) :
  file (snd (render_pass now s db)) = db
  /\ (forall w, match get_database_connection w with
                | (Normal con, w') => read_only con = true /\ file w' = file w
                | (Raised _, w') => file w' = file w
                end)
  /\ (forall k (sql : statement k) w,
        file (snd (execute {| read_only := true |} sql w)) = file w).
Proof.
  split; [|split].
  - unfold render_pass. rewrite keeps_main. reflexivity.
  - intros w. pose proof (keeps_get_database_connection w) as Hk.
    destruct (get_database_connection w) as [[con|e] w'] eqn:Hc; cbn in Hk.
    + split; [|exact Hk]. eapply connection_is_read_only; exact Hc.
    + exact Hk.
  - intros k sql w. apply keeps_execute_read_only. reflexivity.
Qed.

Lemma in_band_iff (ui : sidebar) (r : forecast_row) :
  in_band ui r = true <->
  (inject_Z (fst (temp_range ui)) <= temp_max r)%Q
  /\ (temp_max r <= inject_Z (snd (temp_range ui)))%Q.
Proof.
  unfold in_band. rewrite andb_true_iff, !Qle_bool_iff. reflexivity.
Qed.

(** C10. After the city and date filters, a row is kept by the
    temperature band [lo, hi] exactly when lo <= temp_max <= hi. The test
    does not read temp_min or temp_avg: replacing them in a row changes
    nothing, so a row whose temp_min is below the band stays when its
    temp_max is inside. *)
Theorem temperature_band_reads_temp_max_only (ui : sidebar)
    (df : list forecast_row) (r : forecast_row) :
  (In r (filtered_df ui df) <->
     In r (date_filter ui (city_filter ui df))
     /\ (inject_Z (fst (temp_range ui)) <= temp_max r)%Q
     /\ (temp_max r <= inject_Z (snd (temp_range ui)))%Q)
  /\ (forall tmin tavg : Q, in_band ui (with_temps r tmin tavg) = in_band ui r)
  /\ (forall tmin tavg : Q,
        In (with_temps r tmin tavg) (date_filter ui (city_filter ui df)) ->
        in_band ui r = true ->
        In (with_temps r tmin tavg) (filtered_df ui df)).
Proof.
  split; [|split].
  - unfold filtered_df, temp_filter. rewrite filter_In, in_band_iff. reflexivity.
  - reflexivity.
  - intros tmin tavg Hin Hband.
    unfold filtered_df, temp_filter. apply filter_In. split; [exact Hin|].
    exact Hband.
Qed.

(** The Dallas row has its low of 40 below the band [70, 80] and its
    high of 75 inside it: it is kept; the Austin row with a high of 92
    is not. *)
Example band_70_80 :
  map (fun r => (city r, date r)) (filtered_df (all_cities 70 80) forecasts)
  = [("Dallas", 19675%Z); ("Austin", 19676%Z)].
Proof. reflexivity. Qed.

End StoreAndFilters.

(** ** More on the retry loop: any pipeline, mixed failures *)

Section RetryLoopAnyPipeline.
Import Py Runner Jobs.

Variable cfg : AutomationConfig.
Variable pipeline : pipeline_stub.

Let N := MAX_RETRIES cfg.
Let D := RETRY_DELAY_MINUTES cfg.

(** Whatever the pipeline does, interrupts included: the attempts of a run
    are consecutive invocations, no more than the list allows, every sleep
    lasts [D] minutes and there are no more sleeps than attempts below the
    maximum. *)
Lemma any_run (k : nat) : forall (a : nat) (w : world),
  exists r w' es m,
    for_attempt cfg pipeline (seq a k) w = (r, w')
    /\ trace w' = trace w ++ es
    /\ invocations w' = invocations w + m
    /\ m <= k
    /\ attempts_made es = seq (S (invocations w)) m
    /\ Forall (fun s => s = D * 60) (sleeps es)
    /\ List.length (sleeps es) <= N - a.
Proof.
  induction k as [|k IH]; intros a w.
  - exists (Normal false), w, [], 0. cbn. rewrite app_nil_r, Nat.add_0_r.
    repeat split; auto. lia.
  - cbn [seq for_attempt]. unfold bind at 1.
    rewrite attempt_body_eq. cbv zeta.
    destruct (pipeline (S (invocations w))) as [[r|]|e].
    + eexists _, _, _, 1. split; [reflexivity|]. split; [reflexivity|]. cbn.
      repeat split; auto; lia.
    + edestruct (IH (S a)) as (r & w' & es & m & Hrun & Htr & Hinv & Hm & Hatt & Hsl & Hlen).
      eexists r, w', _, (S m). split; [exact Hrun|].
      rewrite Htr, Hinv. cbn [extend trace invocations].
      split; [rewrite <- app_assoc; reflexivity|].
      rewrite attempts_made_app, sleeps_app. cbn in *. rewrite Hatt.
      repeat split; auto; lia.
    + destruct (is_Exception e).
      * destruct (Nat.ltb_spec a (MAX_RETRIES cfg)) as [Hlt|Hge].
        -- edestruct (IH (S a)) as (r & w' & es & m & Hrun & Htr & Hinv & Hm & Hatt & Hsl & Hlen).
           eexists r, w', _, (S m). split; [exact Hrun|].
           rewrite Htr, Hinv. cbn [extend trace invocations].
           split; [rewrite <- app_assoc; reflexivity|].
           rewrite attempts_made_app, sleeps_app. cbn in *. rewrite Hatt.
           repeat split; auto; lia.
        -- eexists _, _, _, 1. split; [reflexivity|]. split; [reflexivity|]. cbn.
           repeat split; auto; lia.
      * eexists _, _, _, 1. split; [reflexivity|]. split; [reflexivity|]. cbn.
        repeat split; auto; lia.
Qed.

(** A run of failing attempts, raising or empty-handed, none of them the
    last one allowed: the loop goes on past them, sleeping after the ones
    that raised and only after those. *)
Lemma failing_prefix (m : nat) : forall (a : nat) (rest : list nat) (w : world),
  S (invocations w) = a ->
  a + m <= N ->
  (forall j, a <= j < a + m -> fails (pipeline j) = true) ->
  exists w',
    for_attempt cfg pipeline (seq a m ++ rest) w = for_attempt cfg pipeline rest w'
    /\ invocations w' = invocations w + m
    /\ attempts_made (trace w') = attempts_made (trace w) ++ seq a m
    /\ sleeps (trace w') =
       sleeps (trace w)
       ++ repeat (D * 60)
            (List.length (filter (fun j => raises_error (pipeline j)) (seq a m))).
Proof.
  induction m as [|m IH]; intros a rest w Ha Hle Hfail.
  - exists w. cbn. rewrite Nat.add_0_r, !app_nil_r. auto.
  - assert (Hk : fails (pipeline a) = true) by (apply Hfail; lia).
    cbn [seq app for_attempt filter]. unfold bind at 1.
    rewrite attempt_body_eq. cbv zeta. rewrite Ha.
    destruct (pipeline a) as [[r|]|e] eqn:Hout; cbn in Hk; try discriminate.
    + edestruct (IH (S a) rest) as (w' & Hrun & Hinv & Hatt & Hsl);
        [ | | | exists w'; split; [exact Hrun|] ].
      * cbn. lia.
      * lia.
      * intros j Hj. apply Hfail. lia.
      * rewrite Hinv, Hatt, Hsl. cbn [extend trace invocations raises_error].
        rewrite !attempts_made_app, !sleeps_app. cbn.
        rewrite !app_nil_r, <- !app_assoc. repeat split. lia.
    + rewrite Hk.
      replace (a <? MAX_RETRIES cfg) with true
        by (symmetry; apply Nat.ltb_lt; fold N; lia).
      edestruct (IH (S a) rest) as (w' & Hrun & Hinv & Hatt & Hsl);
        [ | | | exists w'; split; [exact Hrun|] ].
      * cbn. lia.
      * lia.
      * intros j Hj. apply Hfail. lia.
      * rewrite Hinv, Hatt, Hsl. cbn [extend trace invocations raises_error].
        rewrite Hk. cbn [List.length repeat].
        rewrite !attempts_made_app, !sleeps_app. cbn.
        rewrite <- !app_assoc. repeat split. lia.
Qed.

(** The error log of a run of failing attempts that ends with the last
    one allowed. *)
Lemma failing_attempts_errors (m : nat) : forall (a : nat) (w : world),
  S (invocations w) = a ->
  a + m = S N ->
  (forall k, a <= k < a + m -> fails (pipeline k) = true) ->
  errors_logged (trace (snd (for_attempt cfg pipeline (seq a m) w)))
  = errors_logged (trace w) ++ flat_map (failure_lines cfg pipeline) (seq a m).
Proof.
  induction m as [|m IH]; intros a w Ha Hsum Hfail.
  - cbn. rewrite app_nil_r. reflexivity.
  - assert (Hk : fails (pipeline a) = true) by (apply Hfail; lia).
    cbn [seq for_attempt flat_map]. unfold bind at 1.
    rewrite attempt_body_eq. cbv zeta. rewrite Ha.
    unfold failure_lines at 1.
    destruct (pipeline a) as [[r|]|e]; cbn in Hk; try discriminate.
    + rewrite IH; [ | cbn; lia | lia | intros k Hk'; apply Hfail; lia ].
      cbn [extend trace]. rewrite !errors_logged_app. cbn.
      rewrite <- !app_assoc. reflexivity.
    + rewrite Hk. fold N. destruct (Nat.ltb_spec a N) as [Hlt|Hge].
      * rewrite IH; [ | cbn; lia | lia | intros k Hk'; apply Hfail; lia ].
        cbn [extend trace]. rewrite !errors_logged_app. cbn.
        rewrite <- !app_assoc. reflexivity.
      * assert (m = 0) by lia. subst m.
        cbn [snd extend trace seq flat_map for_attempt ret].
        rewrite !errors_logged_app. cbn. reflexivity.
Qed.

(** When nothing but instances of [Exception] is raised, a run from any
    world and over any list of attempt numbers comes back with a boolean. *)
Lemma for_attempt_returns (Honly : only_Exceptions pipeline) (l : list nat) :
  forall w, exists b w' es,
    for_attempt cfg pipeline l w = (Normal b, w') /\ trace w' = trace w ++ es.
Proof.
  induction l as [|a l IH]; intros w.
  - exists false, w, []. cbn. rewrite app_nil_r. auto.
  - cbn [for_attempt]. unfold bind at 1.
    rewrite attempt_body_eq. cbv zeta.
    destruct (pipeline (S (invocations w))) as [[r|]|e] eqn:Hout.
    + eexists true, _, _. split; reflexivity.
    + edestruct IH as (b & w' & es & Hrun & Htr).
      exists b, w'. eexists. split; [exact Hrun|].
      rewrite Htr. cbn [extend trace]. rewrite <- app_assoc. reflexivity.
    + rewrite (Honly _ _ Hout). destruct (a <? MAX_RETRIES cfg).
      * edestruct IH as (b & w' & es & Hrun & Htr).
        exists b, w'. eexists. split; [exact Hrun|].
        rewrite Htr. cbn [extend trace]. rewrite <- app_assoc. reflexivity.
      * eexists false, _, _. split; reflexivity.
Qed.

(** ... and the boolean tells whether one of the invocations the list
    reaches returns a result. *)
Lemma success_iff (Honly : only_Exceptions pipeline) (k : nat) :
  forall (a : nat) (w : world),
  S (invocations w) = a ->
  a + k = S N ->
  exists b w',
    for_attempt cfg pipeline (seq a k) w = (Normal b, w')
    /\ (b = true <-> exists j, a <= j < a + k /\ returns_truthy (pipeline j) = true).
Proof.
  induction k as [|k IH]; intros a w Ha Hsum.
  - exists false, w. split; [reflexivity|].
    split; [discriminate|]. intros (j & Hj & _). lia.
  - cbn [seq for_attempt]. unfold bind at 1.
    rewrite attempt_body_eq. cbv zeta. rewrite Ha.
    destruct (pipeline a) as [[r|]|e] eqn:Hout.
    + eexists true, _. split; [reflexivity|]. split; auto.
      intros _. exists a. rewrite Hout. split; [lia|reflexivity].
    + edestruct (IH (S a)) as (b & w' & Hrun & Hb);
        [ | | exists b, w'; split; [exact Hrun|] ].
      * cbn. lia.
      * lia.
      * rewrite Hb. split; intros (j & Hj & Ht).
        -- exists j. split; [lia|exact Ht].
        -- exists j. split; [|exact Ht].
           assert (j <> a) by (intros ->; rewrite Hout in Ht; discriminate). lia.
    + rewrite (Honly _ _ Hout). fold N. destruct (Nat.ltb_spec a N) as [Hlt|Hge].
      * edestruct (IH (S a)) as (b & w' & Hrun & Hb);
          [ | | exists b, w'; split; [exact Hrun|] ].
        -- cbn. lia.
        -- lia.
        -- rewrite Hb. split; intros (j & Hj & Ht).
           ++ exists j. split; [lia|exact Ht].
           ++ exists j. split; [|exact Ht].
              assert (j <> a) by (intros ->; rewrite Hout in Ht; discriminate). lia.
      * eexists false, _. split; [reflexivity|].
        split; [discriminate|]. intros (j & Hj & Ht).
        assert (j = a) by lia. subst j. rewrite Hout in Ht. discriminate.
Qed.

End RetryLoopAnyPipeline.

Section RetryMore.
Import Py Runner Samples Jobs MoreSamples.

(** X1. Whatever the pipeline does on any invocation (results, errors,
    interrupts): a call invokes it at most [MAX_RETRIES] times, the
    attempts being 1, 2, ..., m; every sleep lasts [RETRY_DELAY_MINUTES]
    times 60 seconds, and there are at most [MAX_RETRIES - 1] of them. *)
Theorem run_is_bounded (cfg : AutomationConfig) (pipeline : pipeline_stub) :
  exists r w m,
    run_pipeline_with_retry cfg pipeline start = (r, w)
    /\ m <= MAX_RETRIES cfg
    /\ attempts_made (trace w) = seq 1 m
    /\ Forall (fun s => s = RETRY_DELAY_MINUTES cfg * 60) (sleeps (trace w))
    /\ List.length (sleeps (trace w)) <= MAX_RETRIES cfg - 1.
Proof.
  destruct (any_run cfg pipeline (MAX_RETRIES cfg) 1 start)
    as (r & w & es & m & Hrun & Htr & _ & Hm & Hatt & Hsl & Hlen).
  exists r, w, m. split; [exact Hrun|].
  rewrite Htr. cbn [start trace app].
  change (seq 1 m) with (seq (S (invocations start)) m). auto.
Qed.

(** X2. The first invocation that returns a result ends the run: when
    the attempts before attempt k <= N fail, by raising or by returning
    nothing, and attempt k returns a result, the call returns [True], the
    pipeline has been invoked exactly k times, and the run has slept once
    for each earlier attempt that raised, and not for those that returned
    nothing. *)
Theorem first_result_ends_the_run (cfg : AutomationConfig)
    (pipeline : pipeline_stub) (k : nat) :
  1 <= k <= MAX_RETRIES cfg ->
  (forall j, 1 <= j < k -> fails (pipeline j) = true) ->
  returns_truthy (pipeline k) = true ->
  exists w,
    run_pipeline_with_retry cfg pipeline start = (Normal true, w)
    /\ attempts_made (trace w) = seq 1 k
    /\ sleeps (trace w) =
       repeat (RETRY_DELAY_MINUTES cfg * 60)
         (List.length (filter (fun j => raises_error (pipeline j)) (seq 1 (k - 1)))).
Proof.
  intros Hk Hfail Hok.
  unfold run_pipeline_with_retry, range_from_1.
  assert (Hsplit : seq 1 (MAX_RETRIES cfg)
                   = seq 1 (k - 1) ++ k :: seq (S k) (MAX_RETRIES cfg - k)).
  { replace (MAX_RETRIES cfg) with ((k - 1) + S (MAX_RETRIES cfg - k)) at 1 by lia.
    rewrite seq_app. cbn [seq]. replace (1 + (k - 1)) with k by lia. reflexivity. }
  rewrite Hsplit.
  destruct (failing_prefix cfg pipeline (k - 1) (a := 1)
              (k :: seq (S k) (MAX_RETRIES cfg - k)) start)
    as (w1 & Hrun & Hinv & Hatt & Hsl).
  - reflexivity.
  - lia.
  - intros j Hj. apply Hfail. lia.
  - rewrite Hrun. cbn [for_attempt]. unfold bind at 1.
    rewrite attempt_body_eq. cbv zeta. rewrite Hinv.
    cbn [start invocations Nat.add].
    replace (S (k - 1)) with k by lia.
    destruct (pipeline k) as [[r|]|e]; cbn in Hok; try discriminate.
    eexists. split; [reflexivity|].
    cbn [extend trace]. rewrite attempts_made_app, sleeps_app, Hatt, Hsl.
    cbn. rewrite app_nil_r. split; [|reflexivity].
    replace k with ((k - 1) + 1) at 3 by lia.
    rewrite seq_app. cbn [seq]. replace (1 + (k - 1)) with k by lia. reflexivity.
Qed.

Lemma first_result_ends_the_run_witness :
  exists w,
    run_pipeline_with_retry five_tries patchy start = (Normal true, w)
    /\ attempts_made (trace w) = seq 1 3
    /\ sleeps (trace w) =
       repeat (RETRY_DELAY_MINUTES five_tries * 60)
         (List.length (filter (fun j => raises_error (patchy j)) (seq 1 (3 - 1)))).
Proof.
  apply (first_result_ends_the_run five_tries patchy (k := 3)).
  - cbn. lia.
  - intros j Hj. assert (Hc : j = 1 \/ j = 2) by lia.
    destruct Hc as [-> | ->]; reflexivity.
  - reflexivity.
Defined.

(** X3. In a run where every attempt fails, the closing line "Pipeline
    failed after N attempts" is written exactly when the last attempt
    raised: a run whose last attempt returned nothing gives up without
    it. The error log is, attempt by attempt, the numbered line of an
    exception or the unnumbered line of an empty return. *)
Theorem closing_line_only_after_an_exception (cfg : AutomationConfig)
    (pipeline : pipeline_stub) :
  (forall k, 1 <= k <= MAX_RETRIES cfg -> fails (pipeline k) = true) ->
  let w := snd (run_pipeline_with_retry cfg pipeline start) in
  errors_logged (trace w)
  = flat_map (failure_lines cfg pipeline) (seq 1 (MAX_RETRIES cfg))
  /\ (In (FailedAfter (MAX_RETRIES cfg)) (errors_logged (trace w)) <->
      1 <= MAX_RETRIES cfg /\ raises_error (pipeline (MAX_RETRIES cfg)) = true).
Proof.
  intros Hfail w.
  assert (Herr : errors_logged (trace w)
                 = flat_map (failure_lines cfg pipeline) (seq 1 (MAX_RETRIES cfg))).
  { subst w. unfold run_pipeline_with_retry, range_from_1.
    rewrite failing_attempts_errors; [reflexivity | reflexivity | lia |].
    intros k Hk. apply Hfail. lia. }
  split; [exact Herr|]. rewrite Herr, in_flat_map. split.
  - intros (j & Hj & Hin). apply in_seq in Hj. unfold failure_lines in Hin.
    destruct (pipeline j) as [[r|]|e] eqn:Hout.
    + destruct Hin.
    + destruct Hin as [Hin|[]]. discriminate Hin.
    + destruct Hin as [Hin|Hin]; [discriminate Hin|].
      destruct (Nat.ltb_spec j (MAX_RETRIES cfg)) as [Hlt|Hge]; [destruct Hin|].
      assert (j = MAX_RETRIES cfg) by lia. subst j.
      split; [lia|]. specialize (Hfail (MAX_RETRIES cfg)).
      rewrite Hout in *. apply Hfail. lia.
  - intros (HN & Hraise). exists (MAX_RETRIES cfg). split; [apply in_seq; lia|].
    unfold failure_lines.
    destruct (pipeline (MAX_RETRIES cfg)) as [res|e]; [discriminate|].
    rewrite Nat.ltb_irrefl. right. left. reflexivity.
Qed.

Lemma closing_line_only_after_an_exception_witness :
  let w := snd (run_pipeline_with_retry default_config always_raises start) in
  errors_logged (trace w)
  = flat_map (failure_lines default_config always_raises)
      (seq 1 (MAX_RETRIES default_config))
  /\ (In (FailedAfter (MAX_RETRIES default_config)) (errors_logged (trace w)) <->
      1 <= MAX_RETRIES default_config
      /\ raises_error (always_raises (MAX_RETRIES default_config)) = true).
Proof.
  apply (closing_line_only_after_an_exception default_config always_raises).
  intros k _. reflexivity.
Defined.

End RetryMore.

(** ** The job, the one-shot mode and the main loop *)

Section JobsAndLoop.
Import Py Runner Samples Jobs MoreSamples.

Lemma jobs_run_app (s t : list job_event) : jobs_run (s ++ t) = jobs_run s + jobs_run t.
Proof. unfold jobs_run. rewrite filter_app, length_app. reflexivity. Qed.

Lemma waits_app (s t : list job_event) : waits (s ++ t) = waits s ++ waits t.
Proof. apply flat_map_app. Qed.

Lemma job_lines_app (s t : list job_event) :
  job_lines (s ++ t) = job_lines s ++ job_lines t.
Proof. apply flat_map_app. Qed.

Lemma jobs_run_InRetry (t : list event) : jobs_run (map InRetry t) = 0.
Proof. induction t as [|e t IH]; [reflexivity | exact IH]. Qed.

Lemma waits_InRetry (t : list event) : waits (map InRetry t) = [].
Proof. induction t as [|e t IH]; [reflexivity | exact IH]. Qed.

Lemma job_lines_InRetry (t : list event) : job_lines (map InRetry t) = [].
Proof. induction t as [|e t IH]; [reflexivity | exact IH]. Qed.

Variable cfg : AutomationConfig.
Variable pipeline : pipeline_stub.

(** The job, spelled out on the result of the retry loop. *)
Lemma scheduled_job_eq (w : job_world) :
  scheduled_job cfg pipeline w =
  let opening := [JobLogged INFO Bells; JobLogged INFO JobTriggered; JobLogged INFO Bells] in
  match run_pipeline_with_retry cfg pipeline {| invocations := calls w; trace := [] |} with
  | (Normal b, w') =>
      (Normal tt,
       {| calls := invocations w';
          journal := journal w ++ opening ++ map InRetry (trace w')
                     ++ [if b then JobLogged INFO JobCompleted else JobLogged ERROR JobFailed] |})
  | (Raised e, w') =>
      (Raised e,
       {| calls := invocations w';
          journal := journal w ++ opening ++ map InRetry (trace w') |})
  end.
Proof.
  unfold scheduled_job, bind, info, error, note, modify, call. cbn [calls journal].
  destruct (run_pipeline_with_retry cfg pipeline _) as [[b|e] w'].
  - destruct b; cbn [calls journal]; rewrite <- !app_assoc; reflexivity.
  - rewrite <- !app_assoc. reflexivity.
Qed.

(** As long as the pipeline raises nothing but instances of [Exception],
    a job run from any state ends normally, is one job, and does not wait. *)
Lemma scheduled_job_ends (Honly : only_Exceptions pipeline) (w : job_world) :
  exists w' es,
    scheduled_job cfg pipeline w = (Normal tt, w')
    /\ journal w' = journal w ++ es
    /\ jobs_run es = 1
    /\ waits es = []
    /\ ~ In (INFO, StoppedByUser) (job_lines es).
Proof.
  rewrite scheduled_job_eq. cbv zeta.
  destruct (for_attempt_returns cfg Honly (range_from_1 (MAX_RETRIES cfg))
              {| invocations := calls w; trace := [] |}) as (b & w' & es & Hrun & _).
  unfold run_pipeline_with_retry. rewrite Hrun.
  eexists _, _. split; [reflexivity|]. split; [reflexivity|].
  rewrite !jobs_run_app, !waits_app, !job_lines_app,
    jobs_run_InRetry, waits_InRetry, job_lines_InRetry.
  destruct b; cbn; repeat split; auto;
    intros H; repeat (destruct H as [H|H]; [discriminate H|]); exact H.
Qed.

(** The loop, turn by turn, until Ctrl+C arrives or the turns are over. *)
Lemma polling_goes_on (Honly : only_Exceptions pipeline) (turns : list turn) :
  forall w,
  Forall (fun t => interrupted t = false) turns ->
  exists w' es,
    polling cfg pipeline turns w = (Normal StillRunning, w')
    /\ journal w' = journal w ++ es
    /\ jobs_run es = List.length (filter due turns)
    /\ waits es = repeat 60 (List.length turns)
    /\ ~ In (INFO, StoppedByUser) (job_lines es).
Proof.
  induction turns as [|t turns IH]; intros w Hcalm.
  - exists w, []. cbn. rewrite app_nil_r. repeat split; auto.
  - inversion Hcalm as [|? ? Ht Hrest]; subst.
    cbn [polling]. unfold bind at 1. unfold note at 1, modify.
    set (w1 := {| calls := calls w; journal := journal w ++ [Polled] |}).
    unfold bind at 1.
    assert (Hjob : exists w2 es2,
               (if due t then scheduled_job cfg pipeline else ret tt) w1 = (Normal tt, w2)
               /\ journal w2 = journal w1 ++ es2
               /\ jobs_run es2 = (if due t then 1 else 0)
               /\ waits es2 = []
               /\ ~ In (INFO, StoppedByUser) (job_lines es2)).
    { destruct (due t).
      - apply scheduled_job_ends; exact Honly.
      - exists w1, []. cbn. rewrite app_nil_r. repeat split; auto. }
    destruct Hjob as (w2 & es2 & Hjob & Hj2 & Hn2 & Hw2 & Hs2).
    rewrite Hjob. unfold bind at 1. rewrite Ht. unfold note at 1, modify.
    destruct (IH {| calls := calls w2; journal := journal w2 ++ [Waited 60] |} Hrest)
      as (w' & es & Hrun & Hj & Hn & Hw & Hs).
    exists w', ([Polled] ++ es2 ++ [Waited 60] ++ es).
    split; [exact Hrun|].
    rewrite Hj. cbn [journal]. rewrite Hj2. subst w1. cbn [journal].
    split; [rewrite <- !app_assoc; reflexivity|].
    rewrite !jobs_run_app, !waits_app, !job_lines_app, Hn, Hn2, Hw, Hw2.
    cbn [filter]. repeat split.
    + destruct (due t); cbn; lia.
    + intros H. cbn in H. apply in_app_or in H. destruct H as [H|H]; [tauto|].
      cbn in H. tauto.
Qed.

Lemma polling_is_interrupted (Honly : only_Exceptions pipeline)
    (before : list turn) (t : turn) (after : list turn) :
  forall w,
  Forall (fun t => interrupted t = false) before ->
  interrupted t = true ->
  exists w' es,
    polling cfg pipeline (before ++ t :: after) w = (Raised KeyboardInterrupt, w')
    /\ journal w' = journal w ++ es
    /\ jobs_run es = List.length (filter due (before ++ [t]))
    /\ waits es = repeat 60 (List.length before)
    /\ ~ In (INFO, StoppedByUser) (job_lines es).
Proof.
  induction before as [|t0 before IH]; intros w Hcalm Hstop.
  - cbn [app polling]. unfold bind at 1. unfold note at 1, modify.
    set (w1 := {| calls := calls w; journal := journal w ++ [Polled] |}).
    unfold bind at 1.
    assert (Hjob : exists w2 es2,
               (if due t then scheduled_job cfg pipeline else ret tt) w1 = (Normal tt, w2)
               /\ journal w2 = journal w1 ++ es2
               /\ jobs_run es2 = (if due t then 1 else 0)
               /\ waits es2 = []
               /\ ~ In (INFO, StoppedByUser) (job_lines es2)).
    { destruct (due t).
      - apply scheduled_job_ends; exact Honly.
      - exists w1, []. cbn. rewrite app_nil_r. repeat split; auto. }
    destruct Hjob as (w2 & es2 & Hjob & Hj2 & Hn2 & Hw2 & Hs2).
    rewrite Hjob. unfold bind at 1. rewrite Hstop. unfold raise.
    exists w2, ([Polled] ++ es2). split; [reflexivity|].
    rewrite Hj2. subst w1. cbn [journal].
    split; [rewrite <- !app_assoc; reflexivity|].
    rewrite !jobs_run_app, !waits_app, !job_lines_app, Hn2, Hw2.
    cbn [filter]. repeat split.
    + destruct (due t); reflexivity.
    + cbn. exact Hs2.
  - inversion Hcalm as [|? ? Ht Hrest]; subst.
    cbn [app polling]. unfold bind at 1. unfold note at 1, modify.
    set (w1 := {| calls := calls w; journal := journal w ++ [Polled] |}).
    unfold bind at 1.
    assert (Hjob : exists w2 es2,
               (if due t0 then scheduled_job cfg pipeline else ret tt) w1 = (Normal tt, w2)
               /\ journal w2 = journal w1 ++ es2
               /\ jobs_run es2 = (if due t0 then 1 else 0)
               /\ waits es2 = []
               /\ ~ In (INFO, StoppedByUser) (job_lines es2)).
    { destruct (due t0).
      - apply scheduled_job_ends; exact Honly.
      - exists w1, []. cbn. rewrite app_nil_r. repeat split; auto. }
    destruct Hjob as (w2 & es2 & Hjob & Hj2 & Hn2 & Hw2 & Hs2).
    rewrite Hjob. unfold bind at 1. rewrite Ht. unfold note at 1, modify.
    destruct (IH {| calls := calls w2; journal := journal w2 ++ [Waited 60] |} Hrest Hstop)
      as (w' & es & Hrun & Hj & Hn & Hw & Hs).
    exists w', ([Polled] ++ es2 ++ [Waited 60] ++ es).
    split; [exact Hrun|].
    rewrite Hj. cbn [journal]. rewrite Hj2. subst w1. cbn [journal].
    split; [rewrite <- !app_assoc; reflexivity|].
    rewrite !jobs_run_app, !waits_app, !job_lines_app, Hn, Hn2, Hw, Hw2.
    cbn [filter app]. repeat split.
    + destruct (due t0); cbn; lia.
    + intros H. cbn in H. apply in_app_or in H. destruct H as [H|H]; [tauto|].
      cbn in H. tauto.
Qed.

Lemma main_eq (turns : list turn) :
  main cfg pipeline turns job_start =
  match scheduled_job cfg pipeline before_first_job with
  | (Normal _, w1) =>
      try_except_KeyboardInterrupt
        (polling cfg pipeline turns)
        (bind (info Ruler) (fun _ => bind (info StoppedByUser) (fun _ =>
           bind (info Ruler) (fun _ => ret Stopped))))
        {| calls := calls w1; journal := journal w1 ++ [JobLogged INFO LoopStarted] |}
  | (Raised e, w1) => (Raised e, w1)
  end.
Proof.
  unfold main, setup_schedule, bind, info, note, modify, job_start. cbn [calls journal app].
  change {| calls := 0; journal := _ |} with before_first_job.
  destruct (scheduled_job cfg pipeline before_first_job) as [[u|e] w1]; reflexivity.
Qed.

End JobsAndLoop.

(** A line that is in none of the pieces of a journal is not in the
    journal. *)
Ltac absent_line H :=
  cbn in H;
  repeat match type of H with
         | In _ (_ ++ _) => apply in_app_or in H; destruct H as [H|H]
         | In _ (_ :: _) => destruct H as [H|H]; [discriminate H|]
         | _ = _ \/ _ => destruct H as [H|H]; [discriminate H|]
         | In _ [] => destruct H
         | False => destruct H
         end;
  try tauto.

Section JobProperties.
Import Py Runner Samples Jobs MoreSamples.

Lemma third_time_lucky_only_Exceptions : only_Exceptions third_time_lucky.
Proof.
  intros k e. unfold third_time_lucky.
  destruct (k <? 3); intros H; [injection H as <-; reflexivity | discriminate H].
Qed.

(** X4. The one-shot mode always leaves through [sys.exit]: provided the
    pipeline raises nothing but instances of [Exception], [run_once] ends
    with [SystemExit], with code 0 exactly when one of the first
    [MAX_RETRIES] invocations returns a result, and with code 1 otherwise. *)
Theorem run_once_exit_code (cfg : AutomationConfig) (pipeline : pipeline_stub) :
  only_Exceptions pipeline ->
  exists code w,
    run_once cfg pipeline job_start = (Raised (SystemExit code), w)
    /\ (code = 0%Z \/ code = 1%Z)
    /\ (code = 0%Z <->
        exists j, 1 <= j <= MAX_RETRIES cfg /\ returns_truthy (pipeline j) = true).
Proof.
  intros Honly.
  destruct (success_iff cfg Honly (MAX_RETRIES cfg) (a := 1) start)
    as (b & w' & Hrun & Hb); [reflexivity | lia |].
  unfold run_once, bind, info, note, modify, call, raise, job_start.
  cbn [calls journal].
  change {| invocations := 0; trace := [] |} with start.
  unfold run_pipeline_with_retry, range_from_1. rewrite Hrun.
  eexists _, _. split; [reflexivity|].
  split; [destruct b; auto|].
  assert (Hcode : (if b then 0%Z else 1%Z) = 0%Z <-> b = true)
    by (destruct b; split; auto; discriminate).
  rewrite Hcode, Hb. split; intros (j & Hj & Ht); exists j; (split; [lia|exact Ht]).
Qed.

Lemma run_once_exit_code_witness :
  exists code w,
    run_once default_config third_time_lucky job_start = (Raised (SystemExit code), w)
    /\ (code = 0%Z \/ code = 1%Z)
    /\ (code = 0%Z <->
        exists j, 1 <= j <= MAX_RETRIES default_config
                  /\ returns_truthy (third_time_lucky j) = true).
Proof.
  apply (@run_once_exit_code default_config third_time_lucky).
  exact third_time_lucky_only_Exceptions.
Defined.

(** X5. A scheduled job reports what the retry loop returned: provided
    the pipeline raises nothing but instances of [Exception], the job ends
    normally, its own log lines are the three opening lines and one
    closing line, and the closing line is the success line at level INFO
    when one of the first [MAX_RETRIES] invocations returns a result, the
    failure line at level ERROR otherwise. *)
Theorem scheduled_job_reports (cfg : AutomationConfig) (pipeline : pipeline_stub) :
  only_Exceptions pipeline ->
  exists w closing,
    scheduled_job cfg pipeline job_start = (Normal tt, w)
    /\ job_lines (journal w)
       = [(INFO, Bells); (INFO, JobTriggered); (INFO, Bells); closing]
    /\ (closing = (INFO, JobCompleted) \/ closing = (ERROR, JobFailed))
    /\ (closing = (INFO, JobCompleted) <->
        exists j, 1 <= j <= MAX_RETRIES cfg /\ returns_truthy (pipeline j) = true).
Proof.
  intros Honly.
  destruct (success_iff cfg Honly (MAX_RETRIES cfg) (a := 1) start)
    as (b & w' & Hrun & Hb); [reflexivity | lia |].
  rewrite scheduled_job_eq. cbv zeta. unfold job_start. cbn [calls journal].
  change {| invocations := 0; trace := [] |} with start.
  unfold run_pipeline_with_retry, range_from_1. rewrite Hrun.
  eexists _, (if b then (INFO, JobCompleted) else (ERROR, JobFailed)).
  split; [reflexivity|]. cbn [journal app].
  split.
  { change (JobLogged INFO Bells :: JobLogged INFO JobTriggered :: JobLogged INFO Bells
            :: map InRetry (trace w') ++ [if b then JobLogged INFO JobCompleted
                                          else JobLogged ERROR JobFailed])
      with ([JobLogged INFO Bells; JobLogged INFO JobTriggered; JobLogged INFO Bells]
            ++ map InRetry (trace w') ++ [if b then JobLogged INFO JobCompleted
                                          else JobLogged ERROR JobFailed]).
    rewrite !job_lines_app, job_lines_InRetry. destruct b; reflexivity. }
  split; [destruct b; auto|].
  assert (Hc : (if b then (INFO, JobCompleted) else (ERROR, JobFailed))
               = (INFO, JobCompleted) <-> b = true)
    by (destruct b; split; auto; discriminate).
  rewrite Hc, Hb. split; intros (j & Hj & Ht); exists j; (split; [lia|exact Ht]).
Qed.

Lemma scheduled_job_reports_witness :
  exists w closing,
    scheduled_job default_config third_time_lucky job_start = (Normal tt, w)
    /\ job_lines (journal w)
       = [(INFO, Bells); (INFO, JobTriggered); (INFO, Bells); closing]
    /\ (closing = (INFO, JobCompleted) \/ closing = (ERROR, JobFailed))
    /\ (closing = (INFO, JobCompleted) <->
        exists j, 1 <= j <= MAX_RETRIES default_config
                  /\ returns_truthy (third_time_lucky j) = true).
Proof.
  apply (@scheduled_job_reports default_config third_time_lucky).
  exact third_time_lucky_only_Exceptions.
Defined.

(** X6. A failing pipeline never stops the scheduler: provided the
    pipeline raises nothing but instances of [Exception] and no Ctrl+C
    arrives, [main] is still in its loop after any number of turns; it
    has run the job once at startup and once for every turn at which the
    schedule found it due, and has waited 60 seconds after each turn. *)
Theorem failures_never_stop_the_loop (cfg : AutomationConfig)
    (pipeline : pipeline_stub) (turns : list turn) :
  only_Exceptions pipeline ->
  Forall (fun t => interrupted t = false) turns ->
  exists w,
    main cfg pipeline turns job_start = (Normal StillRunning, w)
    /\ jobs_run (journal w) = 1 + List.length (filter due turns)
    /\ waits (journal w) = repeat 60 (List.length turns)
    /\ ~ In (INFO, StoppedByUser) (job_lines (journal w)).
Proof.
  intros Honly Hcalm. rewrite main_eq.
  destruct (scheduled_job_ends cfg Honly before_first_job)
    as (w1 & es1 & Hjob & Hj1 & Hn1 & Hw1 & Hs1).
  rewrite Hjob. unfold try_except_KeyboardInterrupt.
  destruct (polling_goes_on cfg Honly
              {| calls := calls w1; journal := journal w1 ++ [JobLogged INFO LoopStarted] |}
              Hcalm)
    as (w & es & Hrun & Hj & Hn & Hw & Hs).
  rewrite Hrun. exists w. split; [reflexivity|].
  rewrite Hj. cbn [journal]. rewrite Hj1.
  rewrite !jobs_run_app, !waits_app, !job_lines_app, Hn, Hn1, Hw, Hw1.
  cbn. repeat split.
  intros H. absent_line H.
Qed.

Lemma failures_never_stop_the_loop_witness :
  exists w,
    main default_config always_raises [quiet_turn; due_turn; quiet_turn] job_start
    = (Normal StillRunning, w)
    /\ jobs_run (journal w) = 1 + List.length (filter due [quiet_turn; due_turn; quiet_turn])
    /\ waits (journal w) = repeat 60 (List.length [quiet_turn; due_turn; quiet_turn])
    /\ ~ In (INFO, StoppedByUser) (job_lines (journal w)).
Proof.
  apply (@failures_never_stop_the_loop default_config always_raises
           [quiet_turn; due_turn; quiet_turn]).
  - intros k e H. injection H as <-. reflexivity.
  - repeat constructor.
Defined.

(** X7. Ctrl+C during the wait of the loop stops [main] cleanly: it
    returns instead of raising, the turns after the interrupted one are
    never polled, and the last three lines it logs are the stop banner. *)
Theorem ctrl_c_in_the_wait_stops_cleanly (cfg : AutomationConfig)
    (pipeline : pipeline_stub) (before : list turn) (t : turn) (after : list turn) :
  only_Exceptions pipeline ->
  Forall (fun t => interrupted t = false) before ->
  interrupted t = true ->
  exists w earlier,
    main cfg pipeline (before ++ t :: after) job_start = (Normal Stopped, w)
    /\ jobs_run (journal w) = 1 + List.length (filter due (before ++ [t]))
    /\ waits (journal w) = repeat 60 (List.length before)
    /\ job_lines (journal w)
       = earlier ++ [(INFO, Ruler); (INFO, StoppedByUser); (INFO, Ruler)]
    /\ ~ In (INFO, StoppedByUser) earlier.
Proof.
  intros Honly Hcalm Hstop. rewrite main_eq.
  destruct (scheduled_job_ends cfg Honly before_first_job)
    as (w1 & es1 & Hjob & Hj1 & Hn1 & Hw1 & Hs1).
  rewrite Hjob. unfold try_except_KeyboardInterrupt.
  destruct (@polling_is_interrupted cfg pipeline Honly before t after
              {| calls := calls w1; journal := journal w1 ++ [JobLogged INFO LoopStarted] |}
              Hcalm Hstop)
    as (w & es & Hrun & Hj & Hn & Hw & Hs).
  rewrite Hrun. unfold bind, info, note, modify, ret. cbn [calls journal].
  eexists _, (job_lines (journal w)). split; [reflexivity|].
  cbn [journal]. rewrite <- !app_assoc. cbn [app].
  rewrite Hj. cbn [journal]. rewrite Hj1.
  rewrite !jobs_run_app, !waits_app, !job_lines_app, Hn, Hn1, Hw, Hw1.
  cbn. rewrite !app_nil_r, <- !app_assoc. cbn. repeat split.
  - lia.
  - intros H. absent_line H.
Qed.

Lemma ctrl_c_in_the_wait_stops_cleanly_witness :
  exists w earlier,
    main default_config always_raises ([quiet_turn; due_turn] ++ ctrl_c :: [due_turn])
      job_start = (Normal Stopped, w)
    /\ jobs_run (journal w) = 1 + List.length (filter due ([quiet_turn; due_turn] ++ [ctrl_c]))
    /\ waits (journal w) = repeat 60 (List.length [quiet_turn; due_turn])
    /\ job_lines (journal w)
       = earlier ++ [(INFO, Ruler); (INFO, StoppedByUser); (INFO, Ruler)]
    /\ ~ In (INFO, StoppedByUser) earlier.
Proof.
  apply (@ctrl_c_in_the_wait_stops_cleanly default_config always_raises
           [quiet_turn; due_turn] ctrl_c [due_turn]).
  - intros k e H. injection H as <-. reflexivity.
  - repeat constructor.
  - reflexivity.
Defined.

(** X8. Ctrl+C while the pipeline runs in the job that [main] starts
    itself, before the loop, is outside the handler of the loop: the
    interrupt leaves [main], the stop banner is not logged and the loop
    is never entered. *)
Theorem interrupt_in_the_first_job_escapes (cfg : AutomationConfig)
    (pipeline : pipeline_stub) (turns : list turn) :
  1 <= MAX_RETRIES cfg ->
  pipeline 1 = Raises KeyboardInterrupt ->
  exists w,
    main cfg pipeline turns job_start = (Raised KeyboardInterrupt, w)
    /\ ~ In (INFO, StoppedByUser) (job_lines (journal w))
    /\ ~ In Polled (journal w)
    /\ retry_events (journal w) = prologue cfg 1 1.
Proof.
  intros HN Hint. rewrite main_eq, scheduled_job_eq. cbv zeta.
  unfold run_pipeline_with_retry, range_from_1.
  destruct (MAX_RETRIES cfg) as [|n] eqn:HM; [lia|].
  cbn [seq for_attempt before_first_job calls]. unfold bind at 1.
  rewrite attempt_body_eq. cbv zeta. cbn [invocations]. rewrite Hint.
  cbn [is_Exception]. eexists. split; [reflexivity|].
  cbn [journal extend trace app map before_first_job prologue].
  split; [|split].
  - intros H. absent_line H.
  - intros H. absent_line H.
  - reflexivity.
Qed.

Lemma interrupt_in_the_first_job_escapes_witness :
  exists w,
    main default_config Samples.interrupted [due_turn] job_start
    = (Raised KeyboardInterrupt, w)
    /\ ~ In (INFO, StoppedByUser) (job_lines (journal w))
    /\ ~ In Polled (journal w)
    /\ retry_events (journal w) = prologue default_config 1 1.
Proof.
  apply (@interrupt_in_the_first_job_escapes default_config
           Samples.interrupted [due_turn]).
  - cbn. lia.
  - reflexivity.
Defined.

End JobProperties.

(** ** The two queries *)

Section Queries.
Import Py Dashboard Samples Panels.
Local Open Scope string_scope.

Lemma insert_by_permutation {A} (le : A -> A -> bool) (x : A) (l : list A) :
  Permutation (insert_by le x l) (x :: l).
Proof.
  induction l as [|y l IH]; cbn; [reflexivity|].
  destruct (le x y); [reflexivity|].
  etransitivity; [apply perm_skip, IH | apply perm_swap].
Qed.

Lemma order_by_permutation {A} (le : A -> A -> bool) (l : list A) :
  Permutation (order_by le l) l.
Proof.
  induction l as [|x l IH]; cbn; [reflexivity|].
  etransitivity; [apply insert_by_permutation | apply perm_skip, IH].
Qed.

Lemma insert_by_sorted {A} (le : A -> A -> bool)
    (total : forall a b, le a b = false -> le b a = true) (x : A) (l : list A) :
  Sorted (fun a b => le a b = true) l ->
  Sorted (fun a b => le a b = true) (insert_by le x l).
Proof.
  induction l as [|y l IH]; intros Hs; cbn.
  - repeat constructor.
  - destruct (le x y) eqn:Hxy.
    + constructor; [exact Hs|]. constructor. exact Hxy.
    + inversion Hs as [|? ? Hl Hhd]; subst.
      constructor; [apply IH; exact Hl|].
      destruct l as [|z l]; cbn.
      * constructor. apply total. exact Hxy.
      * destruct (le x z).
        -- constructor. apply total. exact Hxy.
        -- inversion Hhd; subst. constructor. assumption.
Qed.

Lemma order_by_sorted {A} (le : A -> A -> bool)
    (total : forall a b, le a b = false -> le b a = true) (l : list A) :
  Sorted (fun a b => le a b = true) (order_by le l).
Proof.
  induction l as [|x l IH]; cbn; [constructor|].
  apply insert_by_sorted; assumption.
Qed.









End Queries.

(** ** The sidebar filters *)

Section Filters.
Import Py Dashboard Samples Panels MoreSamples.
Local Open Scope string_scope.

(** The three filters of lines 296-309 are one filter. *)
Lemma filtered_df_is_one_filter (ui : sidebar) (df : list forecast_row) :
  filtered_df ui df = filter (kept ui) df.
Proof.
  unfold filtered_df, temp_filter, date_filter, city_filter, kept.
  destruct (negb (selected_city ui =? "All"));
    destruct (date_range ui) as [|d0 [|d1 [|d2 dr]]];
    induction df as [|r df IH]; cbn [filter]; try reflexivity;
    repeat match goal with
           | |- context [if ?b then _ else _] =>
               destruct b eqn:?; cbn [filter andb] in *
           end;
    try rewrite IH; try reflexivity; try discriminate; congruence.
Qed.

(** X11. A row is in the filtered frame exactly when it is a row of the
    frame, its city is the selected one or the selection is 'All', its
    date lies in the closed range when the date input holds two dates
    (with one date only, as in the middle of a selection, dates are not
    filtered), and its high lies in the closed temperature band. *)
Theorem filtered_df_keeps_exactly (ui : sidebar) (df : list forecast_row)
    (r : forecast_row) :
  In r (filtered_df ui df) <->
  In r df
  /\ (selected_city ui = "All" \/ city r = selected_city ui)
  /\ match date_range ui with
     | [d0; d1] => (d0 <= date r <= d1)%Z
     | _ => True
     end
  /\ (inject_Z (fst (temp_range ui)) <= temp_max r)%Q
  /\ (temp_max r <= inject_Z (snd (temp_range ui)))%Q.
Proof.
  rewrite filtered_df_is_one_filter, filter_In. unfold kept.
  rewrite !andb_true_iff, in_band_iff.
  assert (Hc : (if negb (selected_city ui =? "All") then city r =? selected_city ui else true)
               = true <-> selected_city ui = "All" \/ city r = selected_city ui).
  { destruct (String.eqb_spec (selected_city ui) "All") as [Hall|Hall]; cbn.
    - tauto.
    - rewrite String.eqb_eq. tauto. }
  assert (Hd : match date_range ui with
               | [d0; d1] => (d0 <=? date r)%Z && (date r <=? d1)%Z
               | _ => true
               end = true
               <-> match date_range ui with
                   | [d0; d1] => (d0 <= date r <= d1)%Z
                   | _ => True
                   end).
  { destruct (date_range ui) as [|d0 [|d1 [|d2 dr]]]; try tauto.
    rewrite andb_true_iff, !Z.leb_le. tauto. }
  rewrite Hc, Hd. tauto.
Qed.

Lemma largest_from (key : forecast_row -> Q) (rest : list forecast_row) :
  forall m : Q,
  let top := fold_left (fun m x => if Qle_bool m (key x) then key x else m) rest m in
  (m <= top)%Q
  /\ (forall x, In x rest -> (key x <= top)%Q)
  /\ (top = m \/ exists x, In x rest /\ top = key x).
Proof.
  induction rest as [|y rest IH]; intros m; cbn.
  - split; [apply Qle_refl|]. split; [intros x []|]. now left.
  - destruct (Qle_bool m (key y)) eqn:Hle.
    + destruct (IH (key y)) as (H1 & H2 & H3). apply Qle_bool_iff in Hle.
      split; [eapply Qle_trans; eassumption|]. split.
      * intros x [<-|Hx]; auto.
      * right. destruct H3 as [->|(x & Hx & ->)]; eauto.
    + destruct (IH m) as (H1 & H2 & H3).
      assert (Hlt : (key y <= m)%Q).
      { apply Qlt_le_weak, Qnot_le_lt. intros H. apply Qle_bool_iff in H. congruence. }
      split; [exact H1|]. split.
      * intros x [<-|Hx]; [eapply Qle_trans; eassumption | auto].
      * destruct H3 as [->|(x & Hx & ->)]; [now left | right; eauto].
Qed.

(** X12. The slider cannot be moved above the largest high with its
    fraction dropped, which is also where it stands by default: a row
    that holds the largest high of the frame is filtered out of every
    chart, table and export, at the default setting and at any other,
    as soon as that high is not a whole number (and is not negative). *)
Theorem band_hides_a_fractional_maximum (df : list forecast_row)
    (by_default ui : sidebar) (x : forecast_row) :
  default_sidebar df = Some by_default ->
  (snd (temp_range ui) <= snd (temp_range by_default))%Z ->
  In x df ->
  (forall y, In y df -> (temp_max y <= temp_max x)%Q) ->
  (0 <= temp_max x)%Q ->
  (inject_Z (Qfloor (temp_max x)) < temp_max x)%Q ->
  ~ In x (filtered_df ui df).
Proof.
  intros Hdflt Hslider Hx Hmax Hpos Hfrac Hin.
  destruct df as [|r rest]; [discriminate|].
  injection Hdflt as <-. cbn [temp_range snd] in Hslider.
  rewrite filtered_df_is_one_filter in Hin. apply filter_In in Hin.
  destruct Hin as (_ & Hkept). unfold kept in Hkept.
  apply andb_true_iff in Hkept. destruct Hkept as (_ & Hband).
  apply in_band_iff in Hband. destruct Hband as (_ & Hhi).
  destruct (largest_from temp_max rest (temp_max r)) as (H1 & H2 & H3).
  fold (largest temp_max r rest) in H1, H2, H3, Hslider.
  set (top := largest temp_max r rest) in *.
  assert (Hge : (temp_max x <= top)%Q).
  { destruct Hx as [<-|Hx]; auto. }
  assert (Hle : (top <= temp_max x)%Q).
  { destruct H3 as [->|(z & Hz & ->)]; apply Hmax; [now left | now right]. }
  assert (Heq : (top == temp_max x)%Q) by (apply Qle_antisym; assumption).
  unfold python_int in Hslider.
  assert (Htop : Qle_bool 0 top = true).
  { apply Qle_bool_iff. apply Qle_trans with (temp_max x); assumption. }
  rewrite Htop in Hslider. rewrite (Qfloor_comp _ _ Heq) in Hslider.
  apply (Qlt_irrefl (temp_max x)).
  apply Qle_lt_trans with (inject_Z (Qfloor (temp_max x))); [|exact Hfrac].
  apply Qle_trans with (inject_Z (snd (temp_range ui))); [exact Hhi|].
  rewrite <- Zle_Qle. exact Hslider.
Qed.

Lemma band_hides_a_fractional_maximum_witness :
  exists ui x,
    default_sidebar july = Some ui
    /\ city x = "Austin"
    /\ ~ In x (filtered_df ui july).
Proof.
  exists {| selected_city := "All"; date_range := [19905%Z; 19905%Z];
            temp_range := (77%Z, 101%Z) |}, (nth 0 july (a_forecast "" 0 0 0)).
  split; [reflexivity|]. split; [reflexivity|].
  apply (@band_hides_a_fractional_maximum july
           {| selected_city := "All"; date_range := [19905%Z; 19905%Z];
              temp_range := (77%Z, 101%Z) |}
           {| selected_city := "All"; date_range := [19905%Z; 19905%Z];
              temp_range := (77%Z, 101%Z) |}
           (nth 0 july (a_forecast "" 0 0 0))).
  - reflexivity.
  - cbn. lia.
  - left. reflexivity.
  - intros y [<-|[<-|[]]]; cbn; unfold Qle; cbn; lia.
  - unfold Qle; cbn; lia.
  - unfold Qlt; vm_compute; reflexivity.
Defined.

End Filters.

(** ** The alert banner, row by row *)

Section Banner.
Import Py Dashboard Samples Panels MoreSamples.
Local Open Scope string_scope.

Lemma has_rows {A} (l : list A) (a : A) : In a l -> (0 <? List.length l)%nat = true.
Proof. destruct l; [intros [] | reflexivity]. Qed.

Lemma rows_of_positive {A} (l : list A) :
  (0 <? List.length l)%nat = true -> exists a, In a l.
Proof. destruct l as [|a l]; [discriminate | exists a; now left]. Qed.

Lemma filter_empty_iff {A} (p : A -> bool) (l : list A) :
  filter p l = [] <-> forall a, In a l -> p a = false.
Proof.
  induction l as [|x l IH]; cbn.
  - split; [intros _ a [] | reflexivity].
  - destruct (p x) eqn:Hp; split.
    + discriminate.
    + intros H. specialize (H x (or_introl eq_refl)). congruence.
    + intros H a [<-|Ha]; [exact Hp | apply IH; assumption].
    + intros H. apply IH. intros a Ha. apply H. now right.
Qed.

Lemma in_head3 {A} (a : A) (l : list A) : In a (head3 l) -> In a l.
Proof.
  unfold head3. intros H. rewrite <- (firstn_skipn 3 l). apply in_or_app. now left.
Qed.

Lemma either_pattern (cell : option string) :
  str_contains ["Tornado"; "Severe Thunderstorm"] cell
  = str_contains ["Tornado"] cell || str_contains ["Severe Thunderstorm"] cell.
Proof.
  destruct cell as [s|]; [|reflexivity]. cbn [str_contains existsb].
  rewrite !orb_false_r. reflexivity.
Qed.

Lemma alerts_banner_parts (now : Z) (alerts_df : list alert_row) :
  alerts_banner now alerts_df =
  match alerts_df with
  | [] => [st_success NoActiveAlerts]
  | _ :: _ =>
      match recent_alerts now alerts_df with
      | [] => []
      | _ :: _ =>
          let recent := recent_alerts now alerts_df in
          (tornado_part recent ++ thunderstorm_part recent
           ++ other_part recent ++ advisory_part recent)%list
      end
  end.
Proof.
  unfold alerts_banner. destruct alerts_df as [|a l]; [reflexivity|].
  cbn [List.length Nat.ltb Nat.leb]. cbv zeta.
  destruct (recent_alerts now (a :: l)) as [|b r]; reflexivity.
Qed.

End Banner.

Section BannerProperties.
Import Py Dashboard Samples Panels MoreSamples.
Local Open Scope string_scope.
Local Open Scope list_scope.

(** Which widgets a part can hold. *)
Ltac in_part H :=
  repeat match type of H with
         | In _ (tornado_part _) => unfold tornado_part in H
         | In _ (thunderstorm_part _) => unfold thunderstorm_part in H
         | In _ (other_part _) => unfold other_part in H
         | In _ (advisory_part _) => unfold advisory_part in H
         | In _ (if ?b then _ else _) => destruct b eqn:?
         | In _ (_ ++ _) => apply in_app_or in H; destruct H as [H|H]
         | In _ (_ :: _) => destruct H as [H|H]
         | In _ [] => destruct H
         | In _ (map _ _) =>
             let a := fresh "a" in
             apply in_map_iff in H; destruct H as (a & H & ?);
             unfold expander_full, expander_short in H
         | _ = _ => first [discriminate H | injection H as ? ? ? ?; subst]
         end.

(** X13. The tornado banner is on the page exactly when the frame holds
    a row extracted less than 24 hours ago whose event contains
    "tornado", in any mix of upper and lower case; rows that are older,
    and rows without an event, never raise it. *)
Theorem tornado_banner_iff (now : Z) (alerts_df : list alert_row) :
  In (st_error TornadoAlert) (alerts_banner now alerts_df) <->
  exists a, In a alerts_df
            /\ (now - extracted_at a < 86400)%Z
            /\ str_contains ["Tornado"] (event a) = true.
Proof.
  rewrite alerts_banner_parts. split.
  - intros H. destruct alerts_df as [|a0 l]; [in_part H|].
    destruct (recent_alerts now (a0 :: l)) as [|b r] eqn:Hrecent; [destruct H|].
    cbv zeta in H. rewrite <- Hrecent in H. in_part H.
    match goal with
    | Hpos : (0 <? List.length (tornado_alerts _))%nat = true |- _ =>
        apply rows_of_positive in Hpos; destruct Hpos as (a & Ha)
    end.
    unfold tornado_alerts, recent_alerts in Ha. rewrite !filter_In in Ha.
    destruct Ha as ((Hin & Hrec) & Hev).
    exists a. split; [exact Hin|]. split; [apply Z.ltb_lt; exact Hrec | exact Hev].
  - intros (a & Hin & Hrec & Hev).
    assert (Hr : In a (recent_alerts now alerts_df)).
    { unfold recent_alerts. apply filter_In. split; [exact Hin|]. apply Z.ltb_lt. exact Hrec. }
    assert (Ht : In a (tornado_alerts (recent_alerts now alerts_df))).
    { unfold tornado_alerts. apply filter_In. split; assumption. }
    destruct alerts_df as [|a0 l]; [destruct Hin|].
    destruct (recent_alerts now (a0 :: l)) as [|b r] eqn:Hrecent; [destruct Hr|].
    cbv zeta. apply in_or_app. left. unfold tornado_part.
    rewrite (has_rows _ _ Ht). now left.
Qed.

(** X14. The section is blank exactly when the frame has rows but no
    recent row falls under any of the four headings: besides the frames
    with stale rows only, a recent row whose event names neither a
    tornado nor a severe thunderstorm and whose severity is none of
    Extreme, Severe, Moderate, Minor leaves the page without any alert
    line, the "no active alerts" line included. *)
Theorem banner_is_blank_iff (now : Z) (alerts_df : list alert_row) :
  alerts_banner now alerts_df = [] <->
  alerts_df <> []
  /\ forall a, In a (recent_alerts now alerts_df) ->
       str_contains ["Tornado"] (event a) = false
       /\ str_contains ["Severe Thunderstorm"] (event a) = false
       /\ isin ["Extreme"; "Severe"] (severity a) = false
       /\ isin ["Moderate"; "Minor"] (severity a) = false.
Proof.
  rewrite alerts_banner_parts.
  destruct alerts_df as [|a0 l].
  { split; [discriminate | intros (H & _); congruence]. }
  destruct (recent_alerts now (a0 :: l)) as [|b r] eqn:Hrecent.
  { split; [|reflexivity]. intros _. split; [discriminate|]. intros a []. }
  cbv zeta. set (recent := b :: r).
  assert (Hparts :
    tornado_part recent ++ thunderstorm_part recent
    ++ other_part recent ++ advisory_part recent = []
    <-> tornado_alerts recent = [] /\ thunderstorm_alerts recent = []
        /\ other_severe_alerts recent = [] /\ moderate_alerts recent = []).
  { unfold tornado_part, thunderstorm_part, other_part, advisory_part.
    split.
    - intros H.
      apply app_eq_nil in H. destruct H as (H1 & H).
      apply app_eq_nil in H. destruct H as (H2 & H).
      apply app_eq_nil in H. destruct H as (H3 & H4).
      destruct (tornado_alerts recent); [|discriminate].
      destruct (thunderstorm_alerts recent); [|discriminate].
      destruct (other_severe_alerts recent); [|discriminate].
      destruct (moderate_alerts recent); [|discriminate]. auto.
    - intros (-> & -> & -> & ->). reflexivity. }
  rewrite Hparts.
  unfold tornado_alerts, thunderstorm_alerts, other_severe_alerts, moderate_alerts.
  rewrite !filter_empty_iff. split.
  - intros (H1 & H2 & H3 & H4). split; [discriminate|]. intros a Ha.
    specialize (H1 a Ha). specialize (H2 a Ha). specialize (H3 a Ha). specialize (H4 a Ha).
    rewrite either_pattern, H1, H2 in H3. cbn in H3. auto.
  - intros (_ & H). repeat split; intros a Ha; destruct (H a Ha) as (H1 & H2 & H3 & H4); auto.
    rewrite H3. apply andb_false_r.
Qed.

Lemma expanders_of_part (hd : widget) (f : alert_row -> widget) (l : list alert_row) :
  is_expander hd = false ->
  (forall a, is_expander (f a) = true) ->
  filter is_expander
    (if (0 <? List.length l)%nat then hd :: map f (head3 l) else [])
  = map f (head3 l).
Proof.
  intros Hhd Hf. destruct l as [|x l]; [reflexivity|].
  cbn [List.length Nat.ltb Nat.leb filter]. rewrite Hhd.
  induction (head3 (x :: l)) as [|a t IH]; cbn; [reflexivity|].
  rewrite Hf, IH. reflexivity.
Qed.

(** X15. The rows the section details are, heading by heading, the
    first three rows of the heading's list and no others: at most three
    under the tornado banner, three under the thunderstorm warning and
    three under the "other severe" warning, nine in all, however many
    alerts are active; and every row it details is a row of the frame
    extracted less than 24 hours ago. *)
Theorem banner_details_are_few_and_recent (now : Z) (alerts_df : list alert_row) :
  let recent := recent_alerts now alerts_df in
  filter is_expander (alerts_banner now alerts_df)
  = map expander_full (head3 (tornado_alerts recent))
    ++ map expander_full (head3 (thunderstorm_alerts recent))
    ++ map expander_short (head3 (other_severe_alerts recent))
  /\ List.length (head3 (tornado_alerts recent))
     = Nat.min 3 (List.length (tornado_alerts recent))
  /\ List.length (head3 (thunderstorm_alerts recent))
     = Nat.min 3 (List.length (thunderstorm_alerts recent))
  /\ List.length (head3 (other_severe_alerts recent))
     = Nat.min 3 (List.length (other_severe_alerts recent))
  /\ List.length (filter is_expander (alerts_banner now alerts_df)) <= 9
  /\ forall ev area open body,
       In (st_expander ev area open body) (alerts_banner now alerts_df) ->
       exists a, In a alerts_df
                 /\ (now - extracted_at a < 86400)%Z
                 /\ ev = event a /\ area = area_desc a.
Proof.
  cbv zeta.
  assert (Hshown :
    filter is_expander (alerts_banner now alerts_df)
    = map expander_full (head3 (tornado_alerts (recent_alerts now alerts_df)))
      ++ map expander_full (head3 (thunderstorm_alerts (recent_alerts now alerts_df)))
      ++ map expander_short (head3 (other_severe_alerts (recent_alerts now alerts_df)))).
  { rewrite alerts_banner_parts.
    destruct alerts_df as [|a0 l]; [reflexivity|].
    destruct (recent_alerts now (a0 :: l)) as [|b r] eqn:Hrecent; [reflexivity|].
    cbv zeta. rewrite !filter_app.
    unfold tornado_part, thunderstorm_part, other_part, advisory_part.
    rewrite !expanders_of_part by reflexivity.
    destruct (0 <? _)%nat; cbn [filter is_expander]; rewrite app_nil_r; reflexivity. }
  split; [exact Hshown|].
  split; [unfold head3; apply length_firstn|].
  split; [unfold head3; apply length_firstn|].
  split; [unfold head3; apply length_firstn|].
  split.
  - rewrite Hshown, !length_app, !length_map. unfold head3.
    rewrite !length_firstn. lia.
  - rewrite alerts_banner_parts.
    destruct alerts_df as [|a0 l].
    { intros ev area open body H. in_part H. }
    destruct (recent_alerts now (a0 :: l)) as [|b r] eqn:Hrecent.
    { intros ev area open body []. }
    cbv zeta. rewrite <- Hrecent. set (recent := recent_alerts now (a0 :: l)).
    assert (Hrec : forall a, In a recent ->
                     In a (a0 :: l) /\ (now - extracted_at a < 86400)%Z).
    { intros a Ha. unfold recent, recent_alerts in Ha. apply filter_In in Ha.
      destruct Ha as (Hin & Hlt). split; [exact Hin | apply Z.ltb_lt; exact Hlt]. }
    intros ev area open body H. in_part H;
      match goal with
      | Ha : In ?a (head3 (_ recent)) |- _ =>
          apply in_head3 in Ha;
          unfold tornado_alerts, thunderstorm_alerts, other_severe_alerts in Ha;
          apply filter_In in Ha; destruct Ha as (Ha & _);
          destruct (Hrec a Ha) as (Hin & Hlt);
          exists a; auto
      end.
Qed.

(** X16. No recent row of severity Extreme or Severe goes unflagged: the
    page then carries the tornado banner, the severe-thunderstorm
    warning, or the "other severe" warning with its count. *)
Theorem severe_rows_are_always_flagged (now : Z) (alerts_df : list alert_row)
    (a : alert_row) :
  In a alerts_df ->
  (now - extracted_at a < 86400)%Z ->
  isin ["Extreme"; "Severe"] (severity a) = true ->
  In (st_error TornadoAlert) (alerts_banner now alerts_df)
  \/ In (st_warning SevereThunderstormWarning) (alerts_banner now alerts_df)
  \/ In (st_warning (OtherSevereActive
           (List.length (other_severe_alerts (recent_alerts now alerts_df)))))
        (alerts_banner now alerts_df).
Proof.
  intros Hin Hlt Hsev. rewrite alerts_banner_parts.
  assert (Hr : In a (recent_alerts now alerts_df)).
  { unfold recent_alerts. apply filter_In. split; [exact Hin | apply Z.ltb_lt; exact Hlt]. }
  destruct alerts_df as [|a0 l]; [destruct Hin|].
  destruct (recent_alerts now (a0 :: l)) as [|b r] eqn:Hrecent; [destruct Hr|].
  cbv zeta. set (recent := b :: r) in *.
  destruct (str_contains ["Tornado"] (event a)) eqn:Ht.
  - left. apply in_or_app. left. unfold tornado_part.
    assert (Hm : In a (tornado_alerts recent))
      by (unfold tornado_alerts; apply filter_In; auto).
    rewrite (has_rows _ _ Hm). now left.
  - destruct (str_contains ["Severe Thunderstorm"] (event a)) eqn:Hs.
    + right. left. apply in_or_app. right. apply in_or_app. left.
      unfold thunderstorm_part.
      assert (Hm : In a (thunderstorm_alerts recent))
        by (unfold thunderstorm_alerts; apply filter_In; auto).
      rewrite (has_rows _ _ Hm). now left.
    + right. right. apply in_or_app. right. apply in_or_app. right.
      apply in_or_app. left. unfold other_part.
      assert (Hm : In a (other_severe_alerts recent)).
      { unfold other_severe_alerts. apply filter_In. split; [exact Hr|].
        rewrite either_pattern, Ht, Hs, Hsev. reflexivity. }
      rewrite (has_rows _ _ Hm). now left.
Qed.

End BannerProperties.

Section WhatIsShownIsTheLatest.
Import Py Dashboard Samples Panels MoreSamples.
Local Open Scope string_scope.
Local Open Scope list_scope.

Lemma severe_rows_are_always_flagged_witness :
  let alerts_df := [tornado_warning "Extreme"; flood_watch; tornado_watch] in
  In (st_error TornadoAlert) (alerts_banner now0 alerts_df)
  \/ In (st_warning SevereThunderstormWarning) (alerts_banner now0 alerts_df)
  \/ In (st_warning (OtherSevereActive
           (List.length (other_severe_alerts (recent_alerts now0 alerts_df)))))
        (alerts_banner now0 alerts_df).
Proof.
  apply (@severe_rows_are_always_flagged now0
           [tornado_warning "Extreme"; flood_watch; tornado_watch]
           (tornado_warning "Extreme")).
  - left. reflexivity.
  - reflexivity.
  - reflexivity.
Defined.






End WhatIsShownIsTheLatest.

(** ** The page as a whole *)

Section Page.
Import Py Dashboard Samples Panels MoreSamples.
Local Open Scope string_scope.
Local Open Scope list_scope.


Lemma tame_bind_at {A B} (c : eff world A) (k : A -> eff world B) (w : world) :
  tame_at c w -> (forall a, tame (k a)) -> tame_at (bind c k) w.
Proof.
  unfold tame_at, tame, bind. intros Hc Hk.
  destruct (c w) as [[a|e] w1]; cbn in *; [apply Hk | exact Hc].
Qed.

Lemma tame_bind {A B} (c : eff world A) (k : A -> eff world B) :
  tame c -> (forall a, tame (k a)) -> tame (bind c k).
Proof. intros Hc Hk w. apply tame_bind_at; [apply Hc | exact Hk]. Qed.

Lemma tame_st (ws : list widget) : tame (st ws).
Proof. intros w. exact I. Qed.

Lemma tame_draw (d : drawn) : tame_drawing d -> tame (draw d).
Proof.
  intros Hd. unfold draw. apply tame_bind; [apply tame_st|].
  intros _ w. unfold tame_drawing in Hd.
  destruct (snd d); cbn; [exact Hd | exact I].
Qed.

Lemma tame_load_alerts_data : tame load_alerts_data.
Proof.
  intros w. destruct (load_alerts_data_total w) as (df & H).
  unfold tame_at. rewrite H. exact I.
Qed.

Lemma tame_load_forecast_data (db : option database) (pg : list widget) :
  tame_store db -> tame_at load_forecast_data {| file := db; page := pg |}.
Proof.
  unfold tame_store, tame_at, load_forecast_data, bind, get_database_connection,
    duckdb_connect, execute, ret. cbn.
  destruct db as [d|]; cbn; [|reflexivity].
  destruct (forecast_data d); cbn; auto.
Qed.

Lemma main_guards_the_script (now : Z) (s : sections) :
  main now s = try_except_Exception (script now s) (fun e => st (error_page (str e))).
Proof. reflexivity. Qed.

Lemma tame_script (now : Z) (s : sections) (db : option database) :
  tame_sections s -> tame_store db ->
  tame_at (script now s) {| file := db; page := [] |}.
Proof.
  intros (H1 & H2 & H3 & H4 & H5 & H6) Hdb. unfold script.
  apply tame_bind_at; [apply tame_load_forecast_data; exact Hdb|]. intros df.
  apply tame_bind; [apply tame_load_alerts_data|]. intros alerts_df.
  apply tame_bind; [apply tame_draw, H1|]. intros _.
  apply tame_bind; [apply tame_st|]. intros _.
  apply tame_bind.
  { intros w. unfold tame_at, ask.
    destruct (sidebar_choices s df) as [ui|e] eqn:Hc; cbn; [exact I|].
    eapply H2; exact Hc. }
  intros ui.
  apply tame_bind; [apply tame_draw, H3|]. intros _.
  apply tame_bind; [apply tame_draw, H4|]. intros _.
  apply tame_bind; [apply tame_draw, H5|]. intros _.
  apply tame_bind; [apply tame_st|]. intros _.
  apply tame_draw, H6.
Qed.

(** X19. A render pass in which nothing is raised outside the
    [Exception] hierarchy, by the store or by a drawing section, ends
    normally, and every such failure ends as the inline error on the
    page: when the statements of the script stop with an exception, the
    page of the pass is what they had drawn so far followed by the error
    with the text of the exception and the two hints; when they do not,
    the page is what they drew. Nothing leaves the script. *)
Theorem render_pass_contains_every_Exception (now : Z) (s : sections)
    (db : option database) :
  tame_sections s ->
  tame_store db ->
  let w0 := {| file := db; page := [] |} in
  render_pass now s db
  = (Normal tt,
     match script now s w0 with
     | (Normal _, w1) => w1
     | (Raised e, w1) =>
         {| file := file w1; page := page w1 ++ error_page (str e) |}
     end)
  /\ (forall e w1, script now s w0 = (Raised e, w1) -> is_Exception e = true)
  /\ fst (render_pass now s db) = Normal tt.
Proof.
  intros Hs Hdb w0.
  pose proof (@tame_script now s db Hs Hdb) as Hbody. fold w0 in Hbody.
  unfold tame_at in Hbody.
  assert (Hpass : render_pass now s db
    = (Normal tt,
       match script now s w0 with
       | (Normal _, w1) => w1
       | (Raised e, w1) =>
           {| file := file w1; page := page w1 ++ error_page (str e) |}
       end)).
  { unfold render_pass. fold w0. rewrite main_guards_the_script.
    unfold try_except_Exception.
    destruct (script now s w0) as [[[]|e] w1]; cbn in Hbody |- *; [reflexivity|].
    rewrite Hbody. reflexivity. }
  split; [exact Hpass|]. split.
  - intros e w1 Hraised. rewrite Hraised in Hbody. exact Hbody.
  - rewrite Hpass. reflexivity.
Qed.

Lemma render_pass_contains_every_Exception_witness :
  let w0 := {| file := Some watched; page := [] |} in
  (render_pass now0 broken_charts (Some watched)
   = (Normal tt,
      match script now0 broken_charts w0 with
      | (Normal _, w1) => w1
      | (Raised e, w1) =>
          {| file := file w1; page := page w1 ++ error_page (str e) |}
      end)
   /\ (forall e w1, script now0 broken_charts w0 = (Raised e, w1) ->
                    is_Exception e = true)
   /\ fst (render_pass now0 broken_charts (Some watched)) = Normal tt)
  /\ fst (script now0 broken_charts w0)
     = Raised (Exception "ValueError" "cannot convert float NaN to integer")
  /\ page (snd (render_pass now0 broken_charts (Some watched)))
     = alerts_banner now0 [tornado_warning "Extreme"; flood_watch; tornado_watch]
       ++ [st_other "Key Metrics"]
       ++ error_page "cannot convert float NaN to integer".
Proof.
  cbv zeta. split; [|split; reflexivity].
  apply (@render_pass_contains_every_Exception now0 broken_charts (Some watched)).
  - unfold tame_sections, tame_drawing, broken_charts. cbn.
    repeat split; auto. intros df e H. discriminate H.
  - exact I.
Defined.

End Page.

(** ** The temperature cards and the summary *)

Section Cards.
Import Py Dashboard Samples Panels MoreSamples.

Lemma place_cards_fit (ncols : nat) (rows : list forecast_row) : forall idx,
  (forall i, idx <= i < idx + List.length rows -> i mod 4 < ncols) ->
  exists cards,
    place_cards ncols idx rows = Normal cards
    /\ map on_card cards = rows
    /\ Forall (fun c => column c < ncols) cards.
Proof.
  induction rows as [|row rows IH]; intros idx Hfit.
  - exists []. cbn. auto.
  - cbn [place_cards]. unfold cols_at.
    assert (Hc : (idx mod 4 <? ncols) = true)
      by (apply Nat.ltb_lt, Hfit; cbn; lia).
    rewrite Hc.
    destruct (IH (S idx)) as (cards & Hrun & Hrows & Hcols).
    { intros i Hi. apply Hfit. cbn. lia. }
    rewrite Hrun. eexists. split; [reflexivity|]. cbn. split.
    + rewrite Hrows. reflexivity.
    + constructor; [|exact Hcols]. cbn. apply Nat.ltb_lt. exact Hc.
Qed.

Lemma latest_date (rest : list Z) : forall m : Z,
  let top := fold_left Z.max rest m in
  (m <= top)%Z /\ (forall d, In d rest -> (d <= top)%Z) /\ (top = m \/ In top rest).
Proof.
  induction rest as [|d rest IH]; intros m; cbn [fold_left In].
  - split; [lia|]. split; [intros d []|]. now left.
  - destruct (IH (Z.max m d)) as (H1 & H2 & H3). split; [lia|]. split.
    + intros x [<-|Hx]; [lia | auto].
    + destruct H3 as [H3|H3]; [|right; now right].
      destruct (Z.max_spec m d) as [(_ & Hm)|(_ & Hm)]; rewrite Hm in *.
      * right. left. symmetry. exact H3.
      * left. exact H3.
Qed.

Lemma today_is_the_latest (df : list forecast_row) (t : Z) :
  today df = Some t ->
  (forall r, In r df -> (date r <= t)%Z) /\ exists r, In r df /\ date r = t.
Proof.
  destruct df as [|r0 rest]; [discriminate|]. cbn [today]. intros H. injection H as <-.
  destruct (latest_date (map date rest) (date r0)) as (H1 & H2 & H3). split.
  - intros r [<-|Hr]; [exact H1|]. apply H2, in_map, Hr.
  - destruct H3 as [H3|H3].
    + exists r0. split; [now left | congruence].
    + apply in_map_iff in H3. destruct H3 as (r & Hd & Hr).
      exists r. split; [now right | exact Hd].
Qed.

Lemma in_current_temps (df : list forecast_row) (r : forecast_row) :
  In r (current_temps df) <->
  In r df /\ forall r', In r' df -> (date r' <= date r)%Z.
Proof.
  unfold current_temps. destruct (today df) as [t|] eqn:Ht.
  - destruct (today_is_the_latest df Ht) as (Hmax & r0 & Hr0 & Hd0).
    split.
    + intros H. apply (Permutation_in _ (order_by_permutation by_city _)) in H.
      apply filter_In in H. destruct H as (Hin & Hd). apply Z.eqb_eq in Hd.
      split; [exact Hin|]. intros r' Hr'. rewrite Hd. apply Hmax, Hr'.
    + intros (Hin & Hlatest).
      apply (Permutation_in _ (Permutation_sym (order_by_permutation by_city _))).
      apply filter_In. split; [exact Hin|]. apply Z.eqb_eq.
      specialize (Hmax r Hin). specialize (Hlatest r0 Hr0). lia.
  - destruct df; [|discriminate]. split; [intros [] | intros ([] & _)].
Qed.

Lemma current_temps_in_city_order (df : list forecast_row) :
  Sorted in_city_order (current_temps df).
Proof.
  unfold current_temps. destruct (today df) as [t|]; [|constructor].
  assert (Htotal : forall a b, by_city a b = false -> by_city b a = true).
  { intros a b H. unfold by_city in *.
    destruct (String.leb_total (city a) (city b)) as [H'|H']; congruence. }
  pose proof (order_by_sorted by_city Htotal
                (filter (fun r => (date r =? t)%Z) df)) as Hs.
  induction Hs as [|x l Hl IH Hhd]; constructor; [exact IH|].
  destruct Hhd; constructor. assumption.
Qed.

(** X20. The cards of the "current temperatures" section are drawn for
    exactly the rows of the latest date in the frame, one card a row, in
    the order of the city names, and every card lands in a column that
    exists: with fewer than four rows there are as many columns as rows,
    with more the cards wrap around four columns, and [cols[col_idx]] is
    never out of range. *)
Theorem temperature_cards_fit_their_columns (df : list forecast_row) :
  exists cards,
    temperature_cards df = Normal cards
    /\ map on_card cards = current_temps df
    /\ Sorted in_city_order (map on_card cards)
    /\ (forall r, In r (map on_card cards) <->
                  In r df /\ forall r', In r' df -> (date r' <= date r)%Z)
    /\ Forall (fun c => column c < Nat.min (List.length (current_temps df)) 4) cards.
Proof.
  pose proof (current_temps_in_city_order df) as Hsorted.
  unfold temperature_cards. cbv zeta.
  destruct (current_temps df) as [|r0 rest] eqn:Hcur.
  - exists []. cbn. split; [reflexivity|]. split; [reflexivity|].
    split; [constructor|]. split; [|constructor].
    intros r. rewrite <- in_current_temps, Hcur. reflexivity.
  - cbn [List.length Nat.ltb Nat.leb].
    destruct (@place_cards_fit (Nat.min (S (List.length rest)) 4) (r0 :: rest) 0)
      as (cards & Hrun & Hrows & Hcols).
    { intros i Hi. cbn in Hi.
      destruct (Nat.le_gt_cases 4 (S (List.length rest))) as [Hbig|Hsmall].
      - rewrite Nat.min_r by exact Hbig. apply Nat.mod_upper_bound. lia.
      - rewrite Nat.min_l by lia. rewrite Nat.mod_small by lia. lia. }
    exists cards. split; [exact Hrun|]. split; [exact Hrows|].
    split; [rewrite Hrows; exact Hsorted|]. split; [|exact Hcols].
    intros r. rewrite Hrows, <- Hcur. apply in_current_temps.
Qed.

Lemma first_max (key : forecast_row -> Q) (rest : list forecast_row) :
  forall best,
  let top := first_best (fun x y => negb (Qle_bool x y)) key best rest in
  In top (best :: rest)
  /\ forall r, In r (best :: rest) -> (key r <= key top)%Q.
Proof.
  induction rest as [|y rest IH]; intros best; cbn [first_best].
  - split; [now left|]. intros r [<-|[]]. apply Qle_refl.
  - destruct (Qle_bool (key y) (key best)) eqn:Hle; cbn [negb].
    + destruct (IH best) as (Hin & Hmax). apply Qle_bool_iff in Hle. split.
      * destruct Hin as [<-|Hin]; [now left | right; now right].
      * intros r [<-|[<-|Hr]].
        -- apply Hmax. now left.
        -- eapply Qle_trans; [exact Hle | apply Hmax; now left].
        -- apply Hmax. now right.
    + destruct (IH y) as (Hin & Hmax).
      assert (Hlt : (key best <= key y)%Q).
      { apply Qlt_le_weak, Qnot_le_lt. intros H. apply Qle_bool_iff in H. congruence. }
      split.
      * destruct Hin as [<-|Hin]; [right; now left | right; now right].
      * intros r [<-|[<-|Hr]].
        -- eapply Qle_trans; [exact Hlt | apply Hmax; now left].
        -- apply Hmax. now left.
        -- apply Hmax. now right.
Qed.

Lemma first_min (key : forecast_row -> Q) (rest : list forecast_row) :
  forall best,
  let low := first_best (fun x y => negb (Qle_bool y x)) key best rest in
  In low (best :: rest)
  /\ forall r, In r (best :: rest) -> (key low <= key r)%Q.
Proof.
  induction rest as [|y rest IH]; intros best; cbn [first_best].
  - split; [now left|]. intros r [<-|[]]. apply Qle_refl.
  - destruct (Qle_bool (key best) (key y)) eqn:Hle; cbn [negb].
    + destruct (IH best) as (Hin & Hmin). apply Qle_bool_iff in Hle. split.
      * destruct Hin as [<-|Hin]; [now left | right; now right].
      * intros r [<-|[<-|Hr]].
        -- apply Hmin. now left.
        -- eapply Qle_trans; [apply Hmin; now left | exact Hle].
        -- apply Hmin. now right.
    + destruct (IH y) as (Hin & Hmin).
      assert (Hlt : (key y <= key best)%Q).
      { apply Qlt_le_weak, Qnot_le_lt. intros H. apply Qle_bool_iff in H. congruence. }
      split.
      * destruct Hin as [<-|Hin]; [right; now left | right; now right].
      * intros r [<-|[<-|Hr]].
        -- eapply Qle_trans; [apply Hmin; now left | exact Hlt].
        -- apply Hmin. now left.
        -- apply Hmin. now right.
Qed.

(** X21. The summary names real extremes of the latest date only: the
    "hottest location" is a row of the latest date whose high no other
    row of that date exceeds, the "coolest location" one whose low none
    goes below; rows of earlier dates, hotter or cooler, play no part. *)
Theorem summary_names_the_extremes_of_the_latest_date (df : list forecast_row)
    (h c : forecast_row) :
  hottest_city df = Some h ->
  coolest_city df = Some c ->
  (In h df /\ forall r', In r' df -> (date r' <= date h)%Z)
  /\ (In c df /\ forall r', In r' df -> (date r' <= date c)%Z)
  /\ forall r, In r df -> (forall r', In r' df -> (date r' <= date r)%Z) ->
       (temp_max r <= temp_max h)%Q /\ (temp_min c <= temp_min r)%Q.
Proof.
  unfold hottest_city, coolest_city, idxmax, idxmin.
  intros Hh Hc.
  destruct (current_temps df) as [|r0 rest] eqn:Hcur; [discriminate|].
  injection Hh as <-. injection Hc as <-.
  destruct (first_max temp_max rest r0) as (Hin1 & Hmax).
  destruct (first_min temp_min rest r0) as (Hin2 & Hmin).
  rewrite <- Hcur in Hin1, Hin2, Hmax, Hmin.
  split; [apply in_current_temps; exact Hin1|].
  split; [apply in_current_temps; exact Hin2|].
  intros r Hr Hlatest.
  assert (Hcr : In r (current_temps df)) by (apply in_current_temps; auto).
  split; [apply Hmax | apply Hmin]; exact Hcr.
Qed.

Lemma summary_names_the_extremes_of_the_latest_date_witness :
  exists h c,
    (hottest_city spread = Some h /\ city h = "Austin"%string)
    /\ (coolest_city spread = Some c /\ city c = "Dallas"%string)
    /\ List.length (current_temps spread) = 3
    /\ (In h spread /\ forall r', In r' spread -> (date r' <= date h)%Z)
    /\ (In c spread /\ forall r', In r' spread -> (date r' <= date c)%Z)
    /\ forall r, In r spread ->
         (forall r', In r' spread -> (date r' <= date r)%Z) ->
         (temp_max r <= temp_max h)%Q /\ (temp_min c <= temp_min r)%Q.
Proof.
  eexists _, _. split; [split; reflexivity|]. split; [split; reflexivity|].
  split; [reflexivity|].
  apply (@summary_names_the_extremes_of_the_latest_date spread); reflexivity.
Defined.

End Cards.

(** ** The alert timeline *)

Section Timeline.
Import Py Dashboard Samples Panels MoreSamples.

Lemma tally_total (d : Z) (t : list (Z * nat)) :
  bars_total (tally d t) = S (bars_total t).
Proof.
  induction t as [|[k n] t IH]; cbn [tally]; [reflexivity|].
  destruct (d <? k)%Z; [reflexivity|].
  destruct (d =? k)%Z; unfold bars_total in *; cbn [fold_right snd] in *; lia.
Qed.

Lemma tally_days (d : Z) (t : list (Z * nat)) (k : Z) :
  In k (map fst (tally d t)) <-> k = d \/ In k (map fst t).
Proof.
  induction t as [|[k0 n] t IH]; cbn [tally].
  - cbn. intuition.
  - destruct (d <? k0)%Z; [cbn; intuition|].
    destruct (Z.eqb_spec d k0) as [->|Hne]; cbn in *; [intuition|].
    rewrite IH. intuition.
Qed.

Lemma tally_increasing (d : Z) (t : list (Z * nat)) :
  StronglySorted Z.lt (map fst t) -> StronglySorted Z.lt (map fst (tally d t)).
Proof.
  induction t as [|[k n] t IH]; intros Hs; cbn [tally].
  - cbn. repeat constructor.
  - cbn [map fst] in Hs. inversion Hs as [|? ? Ht Hall]; subst.
    destruct (Z.ltb_spec d k) as [Hlt|Hge].
    + cbn [map fst]. constructor; [exact Hs|].
      constructor; [exact Hlt|]. rewrite Forall_forall in *.
      intros x Hx. specialize (Hall x Hx). lia.
    + destruct (Z.eqb_spec d k) as [->|Hne]; [exact Hs|].
      cbn [map fst]. constructor; [apply IH; exact Ht|].
      rewrite Forall_forall in *. intros x Hx.
      apply tally_days in Hx. destruct Hx as [->|Hx]; [lia | apply Hall, Hx].
Qed.

Lemma tally_bars (d : Z) (t : list (Z * nat)) :
  StronglySorted Z.lt (map fst t) ->
  forall k n, In (k, n) (tally d t) ->
    (k = d /\ ((n = 1 /\ ~ In d (map fst t)) \/ exists m, In (d, m) t /\ n = S m))
    \/ (k <> d /\ In (k, n) t).
Proof.
  induction t as [|[k0 n0] t IH]; intros Hs k n Hin; cbn [tally] in Hin.
  - destruct Hin as [Hin|[]]. injection Hin as <- <-. left. split; [reflexivity|].
    left. split; [reflexivity | intros []].
  - cbn [map fst] in Hs. inversion Hs as [|? ? Ht Hall]; subst.
    rewrite Forall_forall in Hall.
    destruct (Z.ltb_spec d k0) as [Hlt|Hge].
    + destruct Hin as [Hin|Hin].
      * injection Hin as <- <-. left. split; [reflexivity|]. left.
        split; [reflexivity|]. cbn. intros [H|H]; [lia|]. specialize (Hall _ H). lia.
      * right. split; [|exact Hin].
        assert (Hk : In k (map fst ((k0, n0) :: t))) by (apply (in_map fst _ _ Hin)).
        cbn in Hk. destruct Hk as [<-|Hk]; [lia|]. specialize (Hall _ Hk). lia.
    + destruct (Z.eqb_spec d k0) as [->|Hne].
      * destruct Hin as [Hin|Hin].
        -- injection Hin as <- <-. left. split; [reflexivity|]. right.
           exists n0. split; [now left | reflexivity].
        -- right. split; [|now right].
           assert (Hk : In k (map fst t)) by (apply (in_map fst _ _ Hin)).
           specialize (Hall _ Hk). lia.
      * destruct Hin as [Hin|Hin].
        -- injection Hin as <- <-. right. split; [congruence | now left].
        -- destruct (IH Ht k n Hin) as [(-> & [(-> & Hno)|(m & Hm & ->)])|(Hk & Hold)].
           ++ left. split; [reflexivity|]. left. split; [reflexivity|].
              cbn. intros [H|H]; [congruence | exact (Hno H)].
           ++ left. split; [reflexivity|]. right. exists m. split; [now right | reflexivity].
           ++ right. split; [exact Hk | now right].
Qed.

Lemma count_on_cons (d : Z) (a : alert_row) (l : list alert_row) :
  count_on d (a :: l) = if (day_of a =? d)%Z then S (count_on d l) else count_on d l.
Proof. unfold count_on. cbn [filter]. destruct (day_of a =? d)%Z; reflexivity. Qed.

Lemma count_on_positive (d : Z) (l : list alert_row) :
  0 < count_on d l <-> exists a, In a l /\ day_of a = d.
Proof.
  induction l as [|a l IH]; [cbn; split; [lia | intros (a & [] & _)]|].
  rewrite count_on_cons. destruct (Z.eqb_spec (day_of a) d) as [Hd|Hd].
  - split; [intros _; exists a; split; [now left | exact Hd] | lia].
  - rewrite IH. split; intros (b & Hb & Hday).
    + exists b. split; [now right | exact Hday].
    + destruct Hb as [<-|Hb]; [congruence|]. exists b. auto.
Qed.

Lemma timeline_invariant (l : list alert_row) :
  StronglySorted Z.lt (map fst (alert_timeline l))
  /\ (forall k n, In (k, n) (alert_timeline l) -> n = count_on k l)
  /\ (forall k, In k (map fst (alert_timeline l)) <-> 0 < count_on k l).
Proof.
  induction l as [|a l (Hs & Hcount & Hdays)]; cbn [alert_timeline fold_right].
  - split; [constructor|]. split; [intros k n []|]. intros k. cbn. split; [intros [] | lia].
  - fold (alert_timeline l). split; [apply tally_increasing; exact Hs|]. split.
    + intros k n Hin. rewrite count_on_cons.
      destruct (@tally_bars _ _ Hs _ _ Hin) as [(-> & [(-> & Hno)|(m & Hm & ->)])|(Hk & Hold)].
      * rewrite Z.eqb_refl. f_equal.
        destruct (count_on (day_of a) l) eqn:Hc; [reflexivity|].
        exfalso. apply Hno, Hdays. lia.
      * rewrite Z.eqb_refl. f_equal. apply Hcount. exact Hm.
      * destruct (Z.eqb_spec (day_of a) k); [congruence|]. apply Hcount. exact Hold.
    + intros k. rewrite tally_days, Hdays, count_on_cons.
      destruct (Z.eqb_spec (day_of a) k) as [Hd|Hd].
      * split; [intros _; lia | intros _; left; symmetry; exact Hd].
      * split; [intros [->|H]; [congruence | exact H] | intros H; right; exact H].
Qed.

(** X22. The timeline accounts for every alert once: its bars are the
    days on which an alert was extracted, each day once and in
    increasing order, the height of a bar is the number of rows of its
    day, and the heights add up to the "Total Alerts" metric. *)
Theorem alert_timeline_accounts_for_every_row (alerts_df : list alert_row) :
  let bars := alert_timeline alerts_df in
  bars_total bars = total_alerts alerts_df
  /\ StronglySorted Z.lt (map fst bars)
  /\ (forall d n, In (d, n) bars -> n = count_on d alerts_df /\ 0 < n)
  /\ (forall a, In a alerts_df ->
        In (day_of a, count_on (day_of a) alerts_df) bars).
Proof.
  cbv zeta. destruct (timeline_invariant alerts_df) as (Hs & Hcount & Hdays).
  split; [|split; [exact Hs|split]].
  - unfold total_alerts. induction alerts_df as [|a l IH]; [reflexivity|].
    cbn [alert_timeline fold_right List.length]. fold (alert_timeline l).
    rewrite tally_total. f_equal. apply IH; apply timeline_invariant.
  - intros d n Hin. split; [apply Hcount; exact Hin|].
    rewrite (Hcount _ _ Hin). apply Hdays. apply (in_map fst _ _ Hin).
  - intros a Ha.
    assert (Hk : In (day_of a) (map fst (alert_timeline alerts_df))).
    { apply Hdays, count_on_positive. exists a. auto. }
    apply in_map_iff in Hk. destruct Hk as ([k n] & Hfst & Hin). cbn in Hfst. subst k.
    rewrite <- (Hcount _ _ Hin). exact Hin.
Qed.

End Timeline.

(** ** The instruction line of an alert *)

Section Instructions.
Import Py Dashboard Samples Panels MoreSamples.





End Instructions.
